(** * Safe wallet: transaction decode classifier and Safe App manifest resolution

    A shallow embedding of
    [src/components/tx/DecodedTx/index.tsx] (the [DecodedTx] component's
    derived values) and of the manifest module that follows it in the same
    source unit ([fetchAndParse], [chooseBestIcon], [getAppLogoUrl],
    [fetchAppManifest], [isAppManifestValid], [fetchSafeAppFromManifest]).

    TypeScript types are erased at run time, so the manifest functions are
    embedded over JavaScript values as [JSON.parse] produces them; the typed
    views ([AppManifestIcon]) are embedded into those values.  Strings are
    byte strings holding UTF-8; every pattern the source searches for is
    ASCII, so searching bytes and searching UTF-16 code units agree. *)

From Stdlib Require Import String Ascii List Bool ZArith NArith Lia.
From Stdlib Require Import DecimalString DecimalPos DecimalN.
Import ListNotations.

Set Warnings "-register-all".

Local Open Scope string_scope.
Local Open Scope Z_scope.

(* ===================================================================== *)
(** ** JavaScript strings *)
(* ===================================================================== *)

Module JSString.

(** [s.startsWith(p)] *)
Definition startsWith (s p : string) : bool := String.prefix p s.

(** [s.includes(p)]: [p] occurs in [s] as a substring. *)
Fixpoint includes (s p : string) : bool :=
  String.prefix p s ||
  match s with
  | EmptyString => false
  | String _ s' => includes s' p
  end.

(** [s.split(c)] for a one-character separator [c]: the pieces between
    the separators, in order; never empty ([''.split(' ')] is ['']). *)
Fixpoint split (c : ascii) (s : string) : list string :=
  match s with
  | EmptyString => [EmptyString]
  | String a s' =>
      if Ascii.eqb a c then EmptyString :: split c s'
      else match split c s' with
           | [] => [String a EmptyString]
           | piece :: pieces => String a piece :: pieces
           end
  end.

Fixpoint drop (n : nat) (s : string) : string :=
  match n, s with
  | O, _ => s
  | S n', String _ s' => drop n' s'
  | S _, EmptyString => EmptyString
  end.

(** Decimal rendering of a non-negative integer, as a template literal
    prints a small number. *)
Definition ofN (n : N) : string :=
  NilZero.string_of_uint (N.to_uint n).

End JSString.

(* ===================================================================== *)
(** ** JavaScript numbers read from strings: [Number(s)] *)
(* ===================================================================== *)

(** The value of a numeric string before it is rounded to binary64:
    [Finite m e] stands for the real number [m * 10^e].  The two
    comparisons the source makes are decided on that exact value, at the
    point where round-to-nearest-even crosses the bound. *)
Inductive JSNumber : Type :=
| NaN
| Infinity (negative : bool)
| Finite (m e : Z).

Definition MIN_ICON_WIDTH : Z := 128.

Module JSNumberOps.

Definition code (a : ascii) : Z := Z.of_N (N_of_ascii a).

(** WhiteSpace and LineTerminator code points of one, two and three
    UTF-8 bytes. *)
Definition ws1 (a : ascii) : bool :=
  let c := code a in ((9 <=? c) && (c <=? 13)) || (c =? 32).

Definition ws2 (a b : ascii) : bool :=
  (code a =? 194) && (code b =? 160).

Definition ws3 (a b c : ascii) : bool :=
  let x := code a in let y := code b in let z := code c in
  ((x =? 225) && (y =? 154) && (z =? 128)) ||
  ((x =? 226) && (y =? 128) &&
     (((128 <=? z) && (z <=? 138)) || (z =? 168) || (z =? 169) || (z =? 175))) ||
  ((x =? 226) && (y =? 129) && (z =? 159)) ||
  ((x =? 227) && (y =? 128) && (z =? 128)) ||
  ((x =? 239) && (y =? 187) && (z =? 191)).

Fixpoint skip_ws (s : string) : string :=
  match s with
  | EmptyString => s
  | String a r1 =>
      if ws1 a then skip_ws r1 else
      match r1 with
      | EmptyString => s
      | String b r2 =>
          if ws2 a b then skip_ws r2 else
          match r2 with
          | EmptyString => s
          | String c r3 => if ws3 a b c then skip_ws r3 else s
          end
      end
  end.

Definition all_ws (s : string) : bool := String.eqb (skip_ws s) "".

Definition digit (base : Z) (a : ascii) : option Z :=
  let c := code a in
  let v := if (48 <=? c) && (c <=? 57) then c - 48
           else if (97 <=? c) && (c <=? 102) then c - 87
           else if (65 <=? c) && (c <=? 70) then c - 55
           else 99 in
  if v <? base then Some v else None.

(** Longest run of digits at the front of [s]: accumulated value, number
    of digits read, and what follows. *)
Fixpoint span_digits (base : Z) (s : string) (acc : Z) (n : nat)
  : Z * nat * string :=
  match s with
  | EmptyString => (acc, n, s)
  | String a s' =>
      match digit base a with
      | Some d => span_digits base s' (acc * base + d) (S n)
      | None => (acc, n, s)
      end
  end.

(** An optional ExponentPart; a dangling [e] is left unread. *)
Definition exponent (s : string) : Z * string :=
  match s with
  | String a r =>
      if (code a =? 101) || (code a =? 69) then
        let '(neg, r1) :=
          match r with
          | String b r' =>
              if code b =? 45 then (true, r')
              else if code b =? 43 then (false, r')
              else (false, r)
          | EmptyString => (false, r)
          end in
        let '(v, n, r2) := span_digits 10 r1 0 0 in
        match n with
        | O => (0, s)
        | S _ => (if neg then - v else v, r2)
        end
      else (0, s)
  | EmptyString => (0, s)
  end.

(** StrUnsignedDecimalLiteral followed by optional white space. *)
Definition unsignedDecimal (neg : bool) (s : string) : JSNumber :=
  if String.prefix "Infinity" s then
    if all_ws (JSString.drop 8 s) then Infinity neg else NaN
  else
    let '(v1, n1, r1) := span_digits 10 s 0 0 in
    let '(v2, n2, r2) :=
      match r1 with
      | String a r => if code a =? 46 then span_digits 10 r v1 0 else (v1, O, r1)
      | EmptyString => (v1, O, r1)
      end in
    match (n1 + n2)%nat with
    | O => NaN
    | S _ =>
        let '(ex, r3) := exponent r2 in
        if all_ws r3
        then Finite (if neg then - v2 else v2) (ex - Z.of_nat n2)
        else NaN
    end.

Definition nonDecimal (base : Z) (s : string) : JSNumber :=
  let '(v, n, r) := span_digits base s 0 0 in
  match n with
  | O => NaN
  | S _ => if all_ws r then Finite v 0 else NaN
  end.

(** The prefix [0x], [0o] or [0b] (in either case) of a
    NonDecimalIntegerLiteral: its radix and its digits. *)
Definition radixPrefix (s : string) : option (Z * string) :=
  match s with
  | String a (String b digits) =>
      if code a =? 48 then
        let c := code b in
        if (c =? 120) || (c =? 88) then Some (16, digits)
        else if (c =? 111) || (c =? 79) then Some (8, digits)
        else if (c =? 98) || (c =? 66) then Some (2, digits)
        else None
      else None
  | _ => None
  end.

(** StringToNumber of ECMAScript. *)
Definition StringToNumber (s : string) : JSNumber :=
  match skip_ws s with
  | EmptyString => Finite 0 0
  | String a r as t =>
      match radixPrefix t with
      | Some (base, digits) => nonDecimal base digits
      | None =>
          if code a =? 45 then unsignedDecimal true r
          else if code a =? 43 then unsignedDecimal false r
          else unsignedDecimal false t
      end
  end.

(** [Number(v)] of a string that may be [undefined]. *)
Definition Number (v : option string) : JSNumber :=
  match v with
  | None => NaN
  | Some s => StringToNumber s
  end.

(** [a / 2^k <= m * 10^e] and [a / 2^k < m * 10^e], on integers. *)
Definition scaled_le (a k m e : Z) : bool :=
  if 0 <=? e then a <=? m * 10 ^ e * 2 ^ k
  else a * 10 ^ (- e) <=? m * 2 ^ k.

Definition scaled_lt (a k m e : Z) : bool :=
  if 0 <=? e then a <? m * 10 ^ e * 2 ^ k
  else a * 10 ^ (- e) <? m * 2 ^ k.

(** [x >= MIN_ICON_WIDTH]: the nearest double is at least 128 exactly
    when the real value is at least [128 - 2^-47], the midpoint below 128
    (which rounds to the even neighbour, 128). *)
Definition ge_MIN_ICON_WIDTH (x : JSNumber) : bool :=
  match x with
  | NaN => false
  | Infinity neg => negb neg
  | Finite m e => scaled_le (MIN_ICON_WIDTH * 2 ^ 47 - 1) 47 m e
  end.

(** [x > 0]: the nearest double is positive exactly when the real value
    is above [2^-1075], half the least positive double. *)
Definition gt_0 (x : JSNumber) : bool :=
  match x with
  | NaN => false
  | Infinity neg => negb neg
  | Finite m e => scaled_lt 1 1075 m e
  end.

(** Truthiness of a number: neither zero nor [NaN]. *)
Definition nonzero (x : JSNumber) : bool :=
  match x with
  | NaN => false
  | Infinity _ => true
  | Finite m e => scaled_lt 1 1075 (Z.abs m) e
  end.

End JSNumberOps.

Import JSNumberOps.

(* ===================================================================== *)
(** ** JavaScript values and completions *)
(* ===================================================================== *)

(** A value as [JSON.parse] builds it.  An object is its list of own
    properties (a key is looked up at its first binding); [undefined] is the
    [None] of [option JSON]. *)
Inductive JSON : Type :=
| JNull
| JBool (b : bool)
| JNumber (x : JSNumber)
| JString (s : string)
| JArray (items : list JSON)
| JObject (props : list (string * JSON)).

Definition JSValue : Type := option JSON.

Inductive TypeErrorCause : Type :=
| NullDeref        (* a property of undefined or null is read *)
| NotAFunction     (* a value that is not a function is called *)
| InvalidURL       (* new URL(...) on a string that does not parse *)
| NetworkFailure.  (* fetch could not complete the request *)

Inductive Exn : Type :=
| Error (message : string)
| TypeError (cause : TypeErrorCause)
| SyntaxError
| AbortError.

(** How a synchronous computation ends. *)
Inductive Completion (A : Type) : Type :=
| Return (a : A)
| Throw (e : Exn).

Arguments Return {A} a.
Arguments Throw {A} e.

Definition bindC {A B : Type} (c : Completion A) (k : A -> Completion B)
  : Completion B :=
  match c with
  | Return a => k a
  | Throw e => Throw e
  end.

Declare Scope js_scope.
Delimit Scope js_scope with js.
Notation "'let!' x ':=' c 'in' k" := (bindC c (fun x => k))
  (at level 10, x pattern, c at level 100, k at level 200) : js_scope.
Local Open Scope js_scope.

Module JS.

Fixpoint assoc (k : string) (props : list (string * JSON)) : JSValue :=
  match props with
  | [] => None
  | (k', v) :: rest => if String.eqb k k' then Some v else assoc k rest
  end.

(** [k in o]: [o] has the property [k]. *)
Definition hasKey (k : string) (props : list (string * JSON)) : bool :=
  match assoc k props with
  | Some _ => true
  | None => false
  end.

(** Truthiness, as [if (v)], [!v], [v || w] and [v ? a : b] test it. *)
Definition truthy (v : JSValue) : bool :=
  match v with
  | None => false
  | Some JNull => false
  | Some (JBool b) => b
  | Some (JNumber x) => nonzero x
  | Some (JString s) => negb (String.eqb s "")
  | Some (JArray _) => true
  | Some (JObject _) => true
  end.

(** [v.k] for a data property [k] that no built-in prototype defines
    ([sizes], [type], [src], [icons], ...), and for [length]. *)
Definition get (v : JSValue) (k : string) : Completion JSValue :=
  match v with
  | None | Some JNull => Throw (TypeError NullDeref)
  | Some (JObject props) => Return (assoc k props)
  | Some (JArray items) =>
      if String.eqb k "length"
      then Return (Some (JNumber (Finite (Z.of_nat (List.length items)) 0)))
      else Return None
  | Some (JString s) =>
      if String.eqb k "length"
      then Return (Some (JNumber (Finite (Z.of_nat (String.length s)) 0)))
      else Return None
  | Some (JBool _) | Some (JNumber _) => Return None
  end.

(** [v?.k] *)
Definition getOpt (v : JSValue) (k : string) : Completion JSValue :=
  match v with
  | None | Some JNull => Return None
  | _ => get v k
  end.

(** [v === w] against a string constant. *)
Definition isString (v : JSValue) (s : string) : bool :=
  match v with
  | Some (JString t) => String.eqb t s
  | _ => false
  end.

(** [icons.find(f)]: the first item on which [f] is truthy. *)
Fixpoint find (f : JSON -> Completion bool) (items : list JSON)
  : Completion JSValue :=
  match items with
  | [] => Return None
  | x :: rest =>
      let! hit := f x in
      if hit then Return (Some x) else find f rest
  end.

End JS.

(* ===================================================================== *)
(** ** The manifest module: icons and validation *)
(* ===================================================================== *)

(** [Number(size.split('x')[0]) >= MIN_ICON_WIDTH] *)
Definition sizeIsWide (size : string) : bool :=
  ge_MIN_ICON_WIDTH (Number (nth_error (JSString.split "x" size) 0)).

(** The callback of [icons.find]:
    [icon?.sizes?.includes('any') || icon?.type === 'image/svg+xml'] *)
Definition isSvgIcon (icon : JSON) : Completion bool :=
  let! sizes := JS.getOpt (Some icon) "sizes" in
  let! anySize :=
    match sizes with
    | None | Some JNull => Return false
    | Some (JString s) => Return (JSString.includes s "any")
    | Some (JArray items) =>
        Return (existsb (fun x => JS.isString (Some x) "any") items)
    | Some _ => Throw (TypeError NotAFunction)
    end in
  if anySize then Return true
  else
    let! type := JS.getOpt (Some icon) "type" in
    Return (JS.isString type "image/svg+xml").

(** [icon.sizes.split(' ')] *)
Definition sizeTokens (icon : JSON) : Completion (list string) :=
  let! sizes := JS.get (Some icon) "sizes" in
  match sizes with
  | None | Some JNull => Throw (TypeError NullDeref)
  | Some (JString s) => Return (JSString.split " " s)
  | Some _ => Throw (TypeError NotAFunction)
  end.

(** The two nested [for] loops: [Some src] when the loop returns
    [icon.src], [None] when it runs to its end. *)
Fixpoint widthScan (icons : list JSON) : Completion (option JSValue) :=
  match icons with
  | [] => Return None
  | icon :: rest =>
      let! sizes := sizeTokens icon in
      if existsb sizeIsWide sizes
      then let! src := JS.get (Some icon) "src" in Return (Some src)
      else widthScan rest
  end.

(** [chooseBestIcon]: [const svgIcon = icons.find(...)], then
    [if (svgIcon) return svgIcon.src], then the width scan, then
    [return icons[0].src || '']. *)
Definition chooseBestIcon (icons : JSValue) : Completion JSValue :=
  match icons with
  | None | Some JNull => Throw (TypeError NullDeref)
  | Some (JArray items) =>
      let! svgIcon := JS.find isSvgIcon items in
      if JS.truthy svgIcon then JS.get svgIcon "src"
      else
        let! found := widthScan items in
        match found with
        | Some src => Return src
        | None =>
            let! src := JS.get (nth_error items 0) "src" in
            if JS.truthy src then Return src else Return (Some (JString ""))
        end
  | Some _ => Throw (TypeError NotAFunction)
  end.

(** [json != null && typeof json === 'object' && 'name' in json &&
    'description' in json && ('icons' in json || 'iconPath' in json)]:
    of the values [JSON.parse] builds, only objects and arrays have the
    type ['object'], and an array has none of these keys. *)
Definition isAppManifestValid (json : JSValue) : bool :=
  match json with
  | Some (JObject props) =>
      JS.hasKey "name" props && JS.hasKey "description" props &&
      (JS.hasKey "icons" props || JS.hasKey "iconPath" props)
  | _ => false
  end.

(* ===================================================================== *)
(** ** The platform the module runs on *)
(* ===================================================================== *)

Record Response : Type := mkResponse {
  status : N;
  body : option string   (* [None]: reading the body fails *)
}.

(** [response.ok]: the status is in the range 200-299. *)
Definition ok (r : Response) : bool :=
  ((200 <=? status r) && (status r <=? 299))%N.

(** What the network does with one request, in milliseconds after the
    request is made. *)
Inductive NetOutcome : Type :=
| Responds (after : N) (r : Response)
| Fails (after : N)
| Hangs.

(** The built-ins and libraries the module calls: the WHATWG URL parser
    ([None]: the string does not parse), the network ([network n url] is
    the fate of the [n]-th request of the run, made to [url]), cheerio's
    [$('link[rel=manifest]').attr('href')] on a page, [JSON.parse]
    ([None]: a syntax error) and the 53 random bits of [Math.random()]. *)
Record Platform : Type := mkPlatform {
  URL_origin : string -> option string;
  network : nat -> string -> NetOutcome;
  manifestLinkHref : string -> Completion (option string);
  JSON_parse : string -> option JSON;
  Math_random : Z
}.

(** Modelled from the spec: [trimTrailingSlash] of [@/utils/url], which is
    not part of the source unit; "normalize appUrl by stripping a trailing
    slash". *)
Fixpoint trimTrailingSlash (url : string) : string :=
  match url with
  | EmptyString => EmptyString
  | String a EmptyString => if Ascii.eqb a "/" then EmptyString else url
  | String a rest => String a (trimTrailingSlash rest)
  end.

(** Modelled from the spec: [isRelativeUrl] of [@/utils/url], which is not
    part of the source unit; a reference "identifiable as a root-relative
    path" is one that starts with a slash. *)
Definition isRelativeUrl (url : string) : bool :=
  JSString.startsWith url "/".

(** [new URL(appUrl).origin] *)
Definition newURLOrigin (P : Platform) (appUrl : string) : Completion string :=
  match URL_origin P appUrl with
  | Some origin => Return origin
  | None => Throw (TypeError InvalidURL)
  end.

(** [icons.length ? chooseBestIcon(icons) : iconPath], after the
    destructuring [{ icons = [], iconPath = '' }] of the manifest. *)
Definition chosenIconUrl (manifest : JSValue) : Completion JSValue :=
  let! icons := JS.get manifest "icons" in
  let icons := match icons with None => Some (JArray []) | Some _ => icons end in
  let! iconPath := JS.get manifest "iconPath" in
  let iconPath := match iconPath with None => Some (JString "") | Some _ => iconPath end in
  let! length := JS.get icons "length" in
  if JS.truthy length then chooseBestIcon icons else Return iconPath.

(** [getAppLogoUrl]: [iconUrl.startsWith('https://')] is evaluated
    before [new URL(appUrl).origin], and both before the test of
    [includesBaseUrl]. *)
Definition getAppLogoUrl (P : Platform) (appUrl : string) (manifest : JSValue)
  : Completion string :=
  let! iconUrl := chosenIconUrl manifest in
  let! iconUrl :=
    match iconUrl with
    | None | Some JNull => Throw (TypeError NullDeref)
    | Some (JString s) => Return s
    | Some _ => Throw (TypeError NotAFunction)
    end in
  let includesBaseUrl := JSString.startsWith iconUrl "https://" in
  let! baseUrl := newURLOrigin P appUrl in
  if includesBaseUrl then Return iconUrl
  else Return (baseUrl ++ (if isRelativeUrl iconUrl then "" else "/") ++ iconUrl).

(* ===================================================================== *)
(** ** Asynchronous code: promises, timers, fetch *)
(* ===================================================================== *)

(** A pending [setTimeout(() => controller.abort(), ms)]: the only kind of
    timer the module sets. *)
Record Timer : Type := mkTimer {
  timerId : nat;
  deadline : N;
  aborts : nat        (* the controller its callback aborts *)
}.

(** What a run can observe of the event loop: the time, the requests made
    so far (oldest first), what was written with [console.error], and the
    timers still pending. *)
Record World : Type := mkWorld {
  clock : N;
  requests : list string;
  console : list Exn;
  timers : list Timer;
  nextId : nat
}.

Definition startWorld : World :=
  {| clock := 0; requests := []; console := []; timers := []; nextId := O |}.

(** How an awaited promise ends; [Forever] is a promise that never
    settles. *)
Inductive Settled (A : Type) : Type :=
| Fulfilled (a : A)
| Rejected (e : Exn)
| Forever.

Arguments Fulfilled {A} a.
Arguments Rejected {A} e.
Arguments Forever {A}.

Definition Async (A : Type) : Type := World -> Settled A * World.

Module Async.

Definition ret {A : Type} (a : A) : Async A := fun w => (Fulfilled a, w).

Definition throw {A : Type} (e : Exn) : Async A := fun w => (Rejected e, w).

Definition bind {A B : Type} (c : Async A) (k : A -> Async B) : Async B :=
  fun w =>
    match c w with
    | (Fulfilled a, w') => k a w'
    | (Rejected e, w') => (Rejected e, w')
    | (Forever, w') => (Forever, w')
    end.

(** [try { c } catch (error) { handler(error) }] *)
Definition tryCatch {A : Type} (c : Async A) (handler : Exn -> Async A)
  : Async A :=
  fun w =>
    match c w with
    | (Rejected e, w') => handler e w'
    | settled => settled
    end.

Definition lift {A : Type} (c : Completion A) : Async A :=
  match c with
  | Return a => ret a
  | Throw e => throw e
  end.

(** [console.error(error)] *)
Definition consoleError (e : Exn) : Async unit :=
  fun w =>
    (Fulfilled tt,
     {| clock := clock w; requests := requests w;
        console := console w ++ [e];
        timers := timers w; nextId := nextId w |}).

(** [new AbortController()] *)
Definition newAbortController : Async nat :=
  fun w =>
    (Fulfilled (nextId w),
     {| clock := clock w; requests := requests w; console := console w;
        timers := timers w; nextId := S (nextId w) |}).

(** [setTimeout(() => controller.abort(), ms)] *)
Definition setTimeout (controller : nat) (ms : N) : Async nat :=
  fun w =>
    (Fulfilled (nextId w),
     {| clock := clock w; requests := requests w; console := console w;
        timers := timers w ++
                  [{| timerId := nextId w;
                      deadline := (clock w + ms)%N;
                      aborts := controller |}];
        nextId := S (nextId w) |}).

(** [clearTimeout(id)] *)
Definition clearTimeout (id : nat) : Async unit :=
  fun w =>
    (Fulfilled tt,
     {| clock := clock w; requests := requests w; console := console w;
        timers := filter (fun t => negb (Nat.eqb (timerId t) id)) (timers w);
        nextId := nextId w |}).

(** Time passes until [t]: the timers due by then have fired. *)
Definition advance (t : N) (w : World) : World :=
  {| clock := t; requests := requests w; console := console w;
     timers := filter (fun tm => (t <? deadline tm)%N) (timers w);
     nextId := nextId w |}.

(** The moment the signal of [controller] is aborted, if a pending timer
    does so. *)
Definition abortTime (controller : option nat) (w : World) : option N :=
  match controller with
  | None => None
  | Some c =>
      fold_right
        (fun tm acc =>
           if Nat.eqb (aborts tm) c then
             match acc with
             | None => Some (deadline tm)
             | Some d => Some (N.min (deadline tm) d)
             end
           else acc)
        None (timers w)
  end.

(** [await fetch(url, { signal })]: the request is logged; the promise
    settles as the network decides, unless the signal is aborted first
    (a response that arrives strictly before the abort wins), in which
    case it rejects with an [AbortError] at that moment. *)
Definition fetch (P : Platform) (url : string) (signal : option nat)
  : Async Response :=
  fun w =>
    let sent :=
      {| clock := clock w; requests := requests w ++ [url];
         console := console w; timers := timers w; nextId := nextId w |} in
    let settle (after : N) (result : Settled Response) :=
      let t := (clock w + after)%N in
      match abortTime signal w with
      | Some d =>
          if (t <? d)%N then (result, advance t sent)
          else (Rejected AbortError, advance d sent)
      | None => (result, advance t sent)
      end in
    match network P (List.length (requests w)) url with
    | Responds after r => settle after (Fulfilled r)
    | Fails after => settle after (Rejected (TypeError NetworkFailure))
    | Hangs =>
        match abortTime signal w with
        | Some d => (Rejected AbortError, advance d sent)
        | None => (Forever, sent)
        end
    end.

(** [await response.text()]: the body is taken to be at hand when the
    response arrives; a body that stalls is not modelled. *)
Definition text (r : Response) : Async string :=
  match body r with
  | Some b => ret b
  | None => throw (TypeError NetworkFailure)
  end.

(** [response.json()], with the body at hand as for [text]. *)
Definition json (P : Platform) (r : Response) : Async JSON :=
  match body r with
  | Some b =>
      match JSON_parse P b with
      | Some v => ret v
      | None => throw SyntaxError
      end
  | None => throw (TypeError NetworkFailure)
  end.

End Async.

Notation "'await!' x ':=' c 'in' k" := (Async.bind c (fun x => k))
  (at level 10, x pattern, c at level 100, k at level 200) : js_scope.

(* ===================================================================== *)
(** ** The manifest module: discovery, fetch, resolution *)
(* ===================================================================== *)

(** [fetchAndParse]: everything happens inside [try]; the [catch] logs
    the error and the function returns [undefined]. *)
Definition fetchAndParse (P : Platform) (url : string) : Async (option string) :=
  Async.tryCatch
    (await! response := Async.fetch P url None in
     if negb (ok response)
     then Async.throw (Error ("Response status: " ++ JSString.ofN (status response)))
     else
       await! html := Async.text response in
       await! manifestPath := Async.lift (manifestLinkHref P html) in
       Async.ret manifestPath)
    (fun error =>
       await! _ := Async.consoleError error in
       Async.ret None).

Definition DEFAULT_TIMEOUT : N := 5000.

(** [fetchAppManifest(appUrl, timeout = 5000)]: [if (manifestPath)] holds
    for a non-empty string; [clearTimeout(id)] follows the awaited [fetch]
    and is reached only when that promise is fulfilled. *)
Definition fetchAppManifest (P : Platform) (appUrl : string) (timeout : option N)
  : Async JSON :=
  let timeout := match timeout with Some ms => ms | None => DEFAULT_TIMEOUT end in
  let normalizedUrl := trimTrailingSlash appUrl in
  await! manifestPath := fetchAndParse P normalizedUrl in
  await! manifestUrl :=
    match manifestPath with
    | Some path =>
        if negb (String.eqb path "") then
          await! origin := Async.lift (newURLOrigin P appUrl) in
          Async.ret (origin ++ path)
        else Async.ret (normalizedUrl ++ "/manifest.json")
    | None => Async.ret (normalizedUrl ++ "/manifest.json")
    end in
  await! controller := Async.newAbortController in
  await! id := Async.setTimeout controller timeout in
  await! response := Async.fetch P manifestUrl (Some controller) in
  await! _ := Async.clearTimeout id in
  if negb (ok response)
  then Async.throw (Error ("Failed to fetch manifest from " ++ manifestUrl))
  else Async.json P response.

Inductive SafeAppAccessPolicyTypes : Type :=
| NoRestrictions
| DomainAllowlist.

Module SafeApp.

Record SafeAppDataWithPermissions : Type := mkSafeApp {
  id : Z;
  url : string;
  name : JSValue;
  description : JSValue;
  accessControl : SafeAppAccessPolicyTypes;
  tags : list string;
  features : list string;
  socialProfiles : list string;
  developerWebsite : string;
  chainIds : list string;
  iconUrl : string;
  safeAppsPermissions : JSValue
}.

End SafeApp.

(** Rounding to binary64, to nearest with ties to even, of a non-negative
    number given in units of [2^-53]; the result is in the same units.
    The numbers rounded here are zero or lie between [2^-53] and [2^31], so
    only the 53 bits of the significand matter. *)
Definition roundToDouble (v : Z) : Z :=
  let k := Z.log2 v - 52 in
  if k <=? 0 then v
  else
    let ulp := 2 ^ k in
    let q := v / ulp in
    let r := v mod ulp in
    let half := 2 ^ (k - 1) in
    if (r <? half) || ((r =? half) && Z.even q) then q * ulp
    else (q + 1) * ulp.

(** [Math.round(Math.random() * 1e9 + 1e6)] for the random number
    [bits / 2^53]: the product and the sum are each rounded to binary64,
    and [Math.round] takes the nearest integer of the sum, a half going
    up. *)
Definition randomId (bits : Z) : Z :=
  let product := roundToDouble (bits * 10 ^ 9) in
  let sum := roundToDouble (product + 10 ^ 6 * 2 ^ 53) in
  (sum + 2 ^ 52) / 2 ^ 53.

(** [fetchSafeAppFromManifest]: the manifest is fetched with the default
    timeout, checked, and turned into the app record. *)
Definition fetchSafeAppFromManifest (P : Platform) (appUrl currentChainId : string)
  : Async SafeApp.SafeAppDataWithPermissions :=
  let normalizedAppUrl := trimTrailingSlash appUrl in
  await! appManifest := fetchAppManifest P appUrl None in
  if negb (isAppManifestValid (Some appManifest))
  then Async.throw (Error "Invalid Safe App manifest")
  else
    await! iconUrl := Async.lift (getAppLogoUrl P normalizedAppUrl (Some appManifest)) in
    await! name := Async.lift (JS.get (Some appManifest) "name") in
    await! description := Async.lift (JS.get (Some appManifest) "description") in
    await! permissions := Async.lift (JS.get (Some appManifest) "safe_apps_permissions") in
    Async.ret
      {| SafeApp.id := randomId (Math_random P);
         SafeApp.url := normalizedAppUrl;
         SafeApp.name := name;
         SafeApp.description := description;
         SafeApp.accessControl := NoRestrictions;
         SafeApp.tags := [];
         SafeApp.features := [];
         SafeApp.socialProfiles := [];
         SafeApp.developerWebsite := "";
         SafeApp.chainIds := [currentChainId];
         SafeApp.iconUrl := iconUrl;
         SafeApp.safeAppsPermissions :=
           if JS.truthy permissions then permissions else Some (JArray []) |}.

(* ===================================================================== *)
(** ** The types the [DecodedTx] component receives *)
(* ===================================================================== *)

Module SDK.

(** [OperationType] of the core SDK and [Operation] of the gateway SDK. *)
Inductive OperationType : Type := Call | DelegateCall.
Inductive Operation : Type := CALL | DELEGATE.

Definition OperationType_eqb (a b : OperationType) : bool :=
  match a, b with
  | Call, Call | DelegateCall, DelegateCall => true
  | _, _ => false
  end.

(** The decoded call data of the gateway: a parameter may carry the
    decoded calls nested in it, each with decoded data of its own. *)
Inductive DecodedDataResponse : Type :=
| mkDecodedData (method : string)
                (parameters : option (list DecodedDataParameter))
with DecodedDataParameter : Type :=
| mkParameter (name type value : string)
              (valueDecoded : option (list InternalTransaction))
with InternalTransaction : Type :=
| mkInternalTransaction (operation : Operation) (to : string)
                        (value data : option string)
                        (dataDecoded : option DecodedDataResponse).

Definition method (d : DecodedDataResponse) : string :=
  match d with mkDecodedData m _ => m end.

Definition parameters (d : DecodedDataResponse)
  : option (list DecodedDataParameter) :=
  match d with mkDecodedData _ ps => ps end.

Definition valueDecoded (p : DecodedDataParameter)
  : option (list InternalTransaction) :=
  match p with mkParameter _ _ _ v => v end.

Record SafeTransactionData : Type := mkSafeTransactionData {
  to : string;
  value : string;
  callData : string;             (* the field [data] *)
  operation : OperationType
}.

Record SafeTransaction : Type := mkSafeTransaction {
  data : SafeTransactionData
}.

Definition AddressInfoIndex : Type := list (string * string).

Record TransactionData : Type := mkTransactionData {
  trustedDelegateCallTarget : option bool;
  addressInfoIndex : option AddressInfoIndex
}.

Record TransactionDetails : Type := mkTransactionDetails {
  txData : option TransactionData
}.

End SDK.

(* ===================================================================== *)
(** ** The [DecodedTx] component: values derived from its props *)
(* ===================================================================== *)

Module DecodedTx.

(** The props, with [txDetails] standing for what [useTxDetails(txId)]
    holds at this render ([None] while loading or after an error). *)
Record DecodedTxProps : Type := mkProps {
  tx : option SDK.SafeTransaction;
  txDetails : option SDK.TransactionDetails;
  decodedData : option SDK.DecodedDataResponse;
  showMultisend : option bool;
  showMethodCall : option bool
}.

(** The defaults of the destructured props:
    [showMultisend = true], [showMethodCall = false]. *)
Definition showMultisendOf (p : DecodedTxProps) : bool :=
  match showMultisend p with Some b => b | None => true end.

Definition showMethodCallOf (p : DecodedTxProps) : bool :=
  match showMethodCall p with Some b => b | None => false end.

(** [!!decodedData?.parameters?.[0]?.valueDecoded]: an array is truthy,
    also when it is empty. *)
Definition isMultisend (decodedData : option SDK.DecodedDataResponse) : bool :=
  match decodedData with
  | None => false
  | Some d =>
      match SDK.parameters d with
      | None => false
      | Some ps =>
          match nth_error ps 0 with
          | None => false
          | Some p =>
              match SDK.valueDecoded p with
              | None => false
              | Some _ => true
              end
          end
      end
  end.

Definition isMethodCallInAdvanced (p : DecodedTxProps) : bool :=
  negb (showMethodCallOf p) || isMultisend (decodedData p).

(** [txDetails?.txData?.addressInfoIndex] *)
Definition addressInfoIndex (p : DecodedTxProps) : option SDK.AddressInfoIndex :=
  match txDetails p with
  | None => None
  | Some details =>
      match SDK.txData details with
      | None => None
      | Some d => SDK.addressInfoIndex d
      end
  end.

(** The object [txData] handed to the decoded-data block. *)
Record TxData : Type := mkTxData {
  dataDecoded : option SDK.DecodedDataResponse;
  to : string;
  value : option string;
  operation : SDK.Operation;
  trustedDelegateCallTarget : bool;
  txAddressInfoIndex : option SDK.AddressInfoIndex
}.

Definition txData (p : DecodedTxProps) : TxData :=
  {| dataDecoded := decodedData p;
     (* tx?.data.to || '' *)
     to := match tx p with
           | Some t => SDK.to (SDK.data t)
           | None => ""
           end;
     (* tx?.data.value *)
     value := match tx p with
              | Some t => Some (SDK.value (SDK.data t))
              | None => None
              end;
     (* tx?.data.operation === OperationType.DelegateCall ? DELEGATE : CALL *)
     operation :=
       match tx p with
       | Some t =>
           if SDK.OperationType_eqb (SDK.operation (SDK.data t)) SDK.DelegateCall
           then SDK.DELEGATE else SDK.CALL
       | None => SDK.CALL
       end;
     (* txDetails?.txData?.trustedDelegateCallTarget ?? true *)
     trustedDelegateCallTarget :=
       match txDetails p with
       | None => true
       | Some details =>
           match SDK.txData details with
           | None => true
           | Some d =>
               match SDK.trustedDelegateCallTarget d with
               | None => true
               | Some flag => flag
               end
           end
       end;
     txAddressInfoIndex := addressInfoIndex p |}.

(** [!decodedData?.method]: no decoded data, or an empty method name. *)
Definition noMethod (decodedData : option SDK.DecodedDataResponse) : bool :=
  match decodedData with
  | None => true
  | Some d => String.eqb (SDK.method d) ""
  end.

(** The last child of the accordion summary:
    [!showMethodCall && !decodedData?.method &&
     Number(tx?.data.value) > 0 && 'native transfer'];
    [None] when nothing is rendered. *)
Definition nativeTransferLabel (p : DecodedTxProps) : option string :=
  if negb (showMethodCallOf p) &&
     noMethod (decodedData p) &&
     gt_0 (Number (match tx p with
                   | Some t => Some (SDK.value (SDK.data t))
                   | None => None
                   end))
  then Some "native transfer"
  else None.

End DecodedTx.

(* ===================================================================== *)
(** ** Typed views and the properties under study *)
(* ===================================================================== *)

(** The icon descriptor of the manifest type: [sizes] is a string; [src]
    and [type] may be missing from the document. *)
Record AppManifestIcon : Type := mkIcon {
  src : option string;
  sizes : string;
  type : option string
}.

Definition optionalProp (k : string) (v : option string) : list (string * JSON) :=
  match v with
  | Some s => [(k, JString s)]
  | None => []
  end.

(** The JavaScript object an icon descriptor is. *)
Definition iconJSON (i : AppManifestIcon) : JSON :=
  JObject (optionalProp "src" (src i) ++
           [("sizes", JString (sizes i))] ++
           optionalProp "type" (type i)).

Definition iconsJSON (icons : list AppManifestIcon) : JSValue :=
  Some (JArray (map iconJSON icons)).

Module IconSelector.

Definition isSvgType (i : AppManifestIcon) : bool :=
  match type i with
  | Some t => String.eqb t "image/svg+xml"
  | None => false
  end.

(** "The size-token list contains the literal any": one of the
    space-separated tokens of [sizes] is [any]. *)
Definition hasAnyToken (i : AppManifestIcon) : bool :=
  existsb (String.eqb "any") (JSString.split " " (sizes i)).

(** A scalable icon as the selection order words it. *)
Definition scalableAsStated (i : AppManifestIcon) : bool :=
  hasAnyToken i || isSvgType i.

(** A scalable icon as the source tests it: [any] occurs somewhere in
    the [sizes] string. *)
Definition scalable (i : AppManifestIcon) : bool :=
  JSString.includes (sizes i) "any" || isSvgType i.

(** Some size token has a width component of at least 128. *)
Definition isWide (i : AppManifestIcon) : bool :=
  existsb sizeIsWide (JSString.split " " (sizes i)).

Definition srcValue (i : AppManifestIcon) : JSValue :=
  match src i with
  | Some s => Some (JString s)
  | None => None
  end.

(** The first icon's source, or the empty string if it is empty or
    absent. *)
Definition fallback (icons : list AppManifestIcon) : JSValue :=
  match icons with
  | i :: _ =>
      match src i with
      | Some s => Some (JString s)
      | None => Some (JString "")
      end
  | [] => Some (JString "")
  end.

(** The selection order as stated, for an outcome [out]. *)
Definition SelectsAsStated (icons : list AppManifestIcon) (out : JSValue) : Prop :=
  ((exists i, In i icons /\ scalableAsStated i = true) ->
   exists i, In i icons /\ scalableAsStated i = true /\ out = srcValue i) /\
  ((forall i, In i icons -> scalableAsStated i = false) ->
   match List.find isWide icons with
   | Some i => out = srcValue i
   | None => out = fallback icons
   end).

(** The selection order the source follows. *)
Definition select (icons : list AppManifestIcon) : JSValue :=
  match List.find scalable icons with
  | Some i => srcValue i
  | None =>
      match List.find isWide icons with
      | Some i => srcValue i
      | None => fallback icons
      end
  end.

End IconSelector.

(** The resolver of icon references, in the words of its description: a
    reference with the secure-scheme prefix is kept; otherwise the origin,
    a slash unless the reference is root-relative, and the reference. *)
Definition resolveAgainstOrigin (origin ref : string) : string :=
  if JSString.startsWith ref "https://" then ref
  else origin ++ (if isRelativeUrl ref then "" else "/") ++ ref.

(** The two fatal error kinds of the resolution call, by the place that
    raises them: the manifest request (a network failure, an abort, a
    status outside 200-299), and the validity check. *)
Definition ManifestFetchError (e : Exn) : Prop :=
  e = AbortError \/ e = TypeError NetworkFailure \/
  exists manifestUrl, e = Error ("Failed to fetch manifest from " ++ manifestUrl).

Definition ManifestInvalidError (e : Exn) : Prop :=
  e = Error "Invalid Safe App manifest".

Definition isTypeError (e : Exn) : bool :=
  match e with
  | TypeError _ => true
  | _ => false
  end.

(** A computation that throws nothing but type errors. *)
Definition OnlyTypeErrors {A : Type} (c : Completion A) : Prop :=
  forall e, c = Throw e -> isTypeError e = true.

(** The world once the discovery request has settled at time [t], having
    logged [errors]. *)
Definition afterDiscovery (url : string) (t : N) (errors : list Exn) : World :=
  {| clock := t; requests := [url]; console := errors; timers := []; nextId := O |}.

(** The timer [fetchAppManifest] sets in a world [w]. *)
Definition manifestTimer (w : World) (ms : N) : Timer :=
  {| timerId := S (nextId w); deadline := (clock w + ms)%N; aborts := nextId w |}.

(** How the discovery request fails with the error [e] at time [t]. *)
Inductive DiscoveryFails (P : Platform) (url : string) : N -> Exn -> Prop :=
| NetworkError : forall t,
    network P 0 url = Fails t ->
    DiscoveryFails P url t (TypeError NetworkFailure)
| BadStatus : forall t r,
    network P 0 url = Responds t r -> ok r = false ->
    DiscoveryFails P url t (Error ("Response status: " ++ JSString.ofN (status r)))
| BodyError : forall t r,
    network P 0 url = Responds t r -> ok r = true -> body r = None ->
    DiscoveryFails P url t (TypeError NetworkFailure)
| ParseError : forall t r html e,
    network P 0 url = Responds t r -> ok r = true -> body r = Some html ->
    manifestLinkHref P html = Throw e ->
    DiscoveryFails P url t e.

(** The discovery request succeeds at time [t] and the page advertises
    [href] (or nothing). *)
Definition DiscoveryYields (P : Platform) (url : string) (t : N) (href : option string) : Prop :=
  exists r html,
    network P 0 url = Responds t r /\ ok r = true /\ body r = Some html /\
    manifestLinkHref P html = Return href.

(** The candidate manifest URL the source computes from what discovery
    found: the origin followed by the href, or the conventional path. *)
Definition candidateManifestUrl (P : Platform) (appUrl : string)
           (manifestPath : option string) : Completion string :=
  match manifestPath with
  | Some path =>
      if negb (String.eqb path "") then
        let! origin := newURLOrigin P appUrl in
        Return (origin ++ path)
      else Return (trimTrailingSlash appUrl ++ "/manifest.json")
  | None => Return (trimTrailingSlash appUrl ++ "/manifest.json")
  end.

(** The time-bounded request of the manifest document, the second half of
    [fetchAppManifest], for a manifest URL and a timeout. *)
Definition manifestRequest (P : Platform) (manifestUrl : string) (ms : N)
  : Async JSON :=
  await! controller := Async.newAbortController in
  await! id := Async.setTimeout controller ms in
  await! response := Async.fetch P manifestUrl (Some controller) in
  await! _ := Async.clearTimeout id in
  if negb (ok response)
  then Async.throw (Error ("Failed to fetch manifest from " ++ manifestUrl))
  else Async.json P response.

(** The world when the manifest request has settled at time [t], with the
    timers [pending]. *)
Definition afterManifestRequest (w : World) (manifestUrl : string) (t : N)
           (pending : list Timer) : World :=
  {| clock := t; requests := requests w ++ [manifestUrl];
     console := console w; timers := pending; nextId := S (S (nextId w)) |}.

(** The properties of the classifier and of the pipeline as they are
    stated. *)
Module Stated.

(** "The first parameter's decoded value is a non-empty sequence of
    inner calls." *)
Definition firstDecodedNonEmpty (d : option SDK.DecodedDataResponse) : Prop :=
  exists m p ps call calls,
    d = Some (SDK.mkDecodedData m (Some (p :: ps))) /\
    SDK.valueDecoded p = Some (call :: calls).

(** "The first parameter carries a nested decoded value." *)
Definition firstDecodedPresent (d : option SDK.DecodedDataResponse) : Prop :=
  exists m p ps calls,
    d = Some (SDK.mkDecodedData m (Some (p :: ps))) /\
    SDK.valueDecoded p = Some calls.

(** "No method name is present and the call value is strictly greater
    than zero", for a transaction [t]. *)
Definition isNativeTransfer (t : SDK.SafeTransaction)
           (d : option SDK.DecodedDataResponse) : bool :=
  DecodedTx.noMethod d && gt_0 (Number (Some (SDK.value (SDK.data t)))).

End Stated.

(* ===================================================================== *)
(** ** Sample inputs *)
(* ===================================================================== *)

Module Sample.

(** A [multiSend] whose batch decodes to no inner call. *)
Definition emptyBatch : SDK.DecodedDataResponse :=
  SDK.mkDecodedData "multiSend"
    (Some [SDK.mkParameter "transactions" "bytes" "0x" (Some [])]).

Definition transferOfOne : SDK.SafeTransaction :=
  SDK.mkSafeTransaction
    (SDK.mkSafeTransactionData "0x000000000000000000000000000000000000dEaD"
       "1" "0x" SDK.Call).

(** A transfer of one base unit rendered with [showMethodCall]. *)
Definition propsWithMethodCall : DecodedTx.DecodedTxProps :=
  DecodedTx.mkProps (Some transferOfOne) None None None (Some true).

Definition propsDefault : DecodedTx.DecodedTxProps :=
  DecodedTx.mkProps (Some transferOfOne) None None None None.

(** Two raster icons; the first one's [sizes] holds a token in which
    [any] occurs without being the token. *)
Definition banyanIcons : list AppManifestIcon :=
  [ mkIcon (Some "a.png") "64x64 banyan" None;
    mkIcon (Some "b.png") "256x256" None ].

(** An icon entry without [sizes]. *)
Definition iconWithoutSizes : JSON := JObject [("src", JString "a.png")].

Definition manifestWithIcons (icons : list JSON) : JSON :=
  JObject [("name", JString "x"); ("description", JString "y");
           ("icons", JArray icons)].

Definition manifestWithIconPath (iconPath : string) : JSON :=
  JObject [("name", JString "x"); ("description", JString "y");
           ("iconPath", JString iconPath)].

Definition onlyName : JSON := JObject [("name", JString "x")].

(** The origin of a plain [https://host/path] URL. *)
Definition httpsOrigin (url : string) : option string :=
  if JSString.startsWith url "https://" then
    match JSString.split "/" (JSString.drop 8 url) with
    | host :: _ => if String.eqb host "" then None else Some ("https://" ++ host)
    | [] => None
    end
  else None.

Definition page (html : string) : Response := mkResponse 200 (Some html).

Definition notFound : Response := mkResponse 404 (Some "Not Found").

(** A platform from a network, with a page parser that finds the link
    [<link rel=manifest href=manifest.json>] in the page that consists
    of it, and a JSON parser that knows one document. *)
Definition platform (net : nat -> string -> NetOutcome) : Platform :=
  {| URL_origin := httpsOrigin;
     network := net;
     manifestLinkHref := fun html =>
       if String.eqb html "<link rel=manifest href=manifest.json>"
       then Return (Some "manifest.json")
       else if String.eqb html "<link rel=manifest href=/app.json>"
       then Return (Some "/app.json")
       else if String.eqb html "<html" then Throw (Error "parse error")
       else Return None;
     JSON_parse := fun text =>
       if String.eqb text "{name:x}" then Some onlyName
       else if String.eqb text "{name:x,description:y,iconPath:/i.png}"
       then Some (manifestWithIconPath "/i.png")
       else None;
     Math_random := 0 |}.

Definition appUrl : string := "https://app.example/".

(** The page is missing; the manifest is at the conventional path and
    arrives after 40 ms. *)
Definition netNoPage (n : nat) (url : string) : NetOutcome :=
  match n with
  | O => Responds 30 notFound
  | _ =>
      if String.eqb url "https://app.example/manifest.json"
      then Responds 40 (mkResponse 200 (Some "{name:x,description:y,iconPath:/i.png}"))
      else Fails 5
  end.

(** The page advertises [manifest.json], a path-relative href. *)
Definition netRelativeLink (n : nat) (url : string) : NetOutcome :=
  match n with
  | O => Responds 30 (page "<link rel=manifest href=manifest.json>")
  | _ => Fails 5
  end.

(** The page advertises [/app.json]; the document there has only a
    name. *)
Definition netRootLink (n : nat) (url : string) : NetOutcome :=
  match n with
  | O => Responds 30 (page "<link rel=manifest href=/app.json>")
  | _ => Responds 40 (mkResponse 200 (Some "{name:x}"))
  end.

(** The page is missing and the manifest request never settles. *)
Definition netHangs (n : nat) (url : string) : NetOutcome :=
  match n with
  | O => Responds 30 notFound
  | _ => Hangs
  end.

(** The page is missing and the manifest is missing too. *)
Definition netNothing (n : nat) (url : string) : NetOutcome :=
  Responds 30 notFound.

(** The page is missing and the manifest request fails after 10 ms. *)
Definition netDown (n : nat) (url : string) : NetOutcome :=
  match n with
  | O => Responds 30 notFound
  | _ => Fails 10
  end.

(** The world after the discovery request got a 404 at 30 ms. *)
Definition missingPage : World :=
  afterDiscovery "https://app.example" 30 [Error "Response status: 404"].

End Sample.

(* ===================================================================== *)
(** ** What the [DecodedTx] component renders *)
(* ===================================================================== *)

Module View.

Import DecodedTx.

(** [{!isMethodCallInAdvanced && <Box>{decodedDataBlock}</Box>}]: the
    decoded-data block above the accordion. *)
Definition decodedDataOutside (p : DecodedTxProps) : bool :=
  negb (isMethodCallInAdvanced p).

(** [{isMultisend && showMultisend && <Multisend ... />}] *)
Definition multisendShown (p : DecodedTxProps) : bool :=
  isMultisend (decodedData p) && showMultisendOf p.

(** [{isMethodCallInAdvanced && decodedData?.method}] in the accordion
    summary: the method name, or nothing ([false], [undefined] and the
    empty string render nothing). *)
Definition summaryMethod (p : DecodedTxProps) : option string :=
  if isMethodCallInAdvanced p then
    match decodedData p with
    | Some d => if String.eqb (SDK.method d) "" then None else Some (SDK.method d)
    | None => None
    end
  else None.

(** [{isMethodCallInAdvanced && decodedData?.method && <>...</>}]: the
    decoded-data block inside the accordion details. *)
Definition decodedDataInside (p : DecodedTxProps) : bool :=
  isMethodCallInAdvanced p && negb (noMethod (decodedData p)).

Inductive SummaryKind : Type := FullSummary | PartialSummary | NoSummary.

(** [{txDetails ? <Summary ... /> : tx && <PartialSummary ... />}] *)
Definition summary (p : DecodedTxProps) : SummaryKind :=
  match txDetails p with
  | Some _ => FullSummary
  | None =>
      match tx p with
      | Some _ => PartialSummary
      | None => NoSummary
      end
  end.

(** [sx={!tx ? { pointerEvents: 'none' } : undefined}] *)
Definition accordionInert (p : DecodedTxProps) : bool :=
  match tx p with
  | Some _ => false
  | None => true
  end.

End View.

(** The platform [P] with other random bits, and an app record with
    another identifier. *)
Definition withRandom (P : Platform) (bits : Z) : Platform :=
  {| URL_origin := URL_origin P;
     network := network P;
     manifestLinkHref := manifestLinkHref P;
     JSON_parse := JSON_parse P;
     Math_random := bits |}.

Definition withId (app : SafeApp.SafeAppDataWithPermissions) (id : Z)
  : SafeApp.SafeAppDataWithPermissions :=
  {| SafeApp.id := id;
     SafeApp.url := SafeApp.url app;
     SafeApp.name := SafeApp.name app;
     SafeApp.description := SafeApp.description app;
     SafeApp.accessControl := SafeApp.accessControl app;
     SafeApp.tags := SafeApp.tags app;
     SafeApp.features := SafeApp.features app;
     SafeApp.socialProfiles := SafeApp.socialProfiles app;
     SafeApp.developerWebsite := SafeApp.developerWebsite app;
     SafeApp.chainIds := SafeApp.chainIds app;
     SafeApp.iconUrl := SafeApp.iconUrl app;
     SafeApp.safeAppsPermissions := SafeApp.safeAppsPermissions app |}.

(** The world after a request that never settles. *)
Definition afterSending (w : World) (url : string) : World :=
  {| clock := clock w; requests := requests w ++ [url];
     console := console w; timers := timers w; nextId := nextId w |}.

(** The keys of an object, in order. *)
Definition keys (props : list (string * JSON)) : list string :=
  map fst props.

(** [iconPath] as the destructuring [{ iconPath = '' }] reads it from an
    object. *)
Definition iconPathOrEmpty (props : list (string * JSON)) : JSValue :=
  match JS.assoc "iconPath" props with
  | Some v => Some v
  | None => Some (JString "")
  end.

(** More sample inputs. *)
Module Sample2.

(** The manifest is served with status 200 and a body that is no JSON. *)
Definition netNotJson (n : nat) (url : string) : NetOutcome :=
  match n with
  | O => Responds 30 Sample.notFound
  | _ => Responds 40 (mkResponse 200 (Some "<html>"))
  end.

(** No request ever settles. *)
Definition netSilent (n : nat) (url : string) : NetOutcome := Hangs.

(** An app URL without a scheme: [new URL] does not parse it. *)
Definition relativeAppUrl : string := "app.example".

Definition manifestNullIcons : JSON :=
  JObject [("name", JString "x"); ("description", JString "y");
           ("icons", JNull); ("iconPath", JString "/i.png")].

Definition manifestBoth : JSON :=
  JObject [("name", JString "x"); ("description", JString "y");
           ("icons", JArray [iconJSON (mkIcon (Some "big.png") "512x512" None)]);
           ("iconPath", JString "/i.png")].

Definition multisendWithMethod : SDK.DecodedDataResponse :=
  SDK.mkDecodedData "multiSend"
    (Some [SDK.mkParameter "transactions" "bytes" "0x00"
             (Some [SDK.mkInternalTransaction SDK.CALL "0xdead" (Some "1") None None])]).

(** The record resolved from the manifest of [Sample.netNoPage], and the
    world the resolution ends in. *)
Definition resolvedApp : SafeApp.SafeAppDataWithPermissions :=
  {| SafeApp.id := 1000000;
     SafeApp.url := "https://app.example";
     SafeApp.name := Some (JString "x");
     SafeApp.description := Some (JString "y");
     SafeApp.accessControl := NoRestrictions;
     SafeApp.tags := [];
     SafeApp.features := [];
     SafeApp.socialProfiles := [];
     SafeApp.developerWebsite := "";
     SafeApp.chainIds := ["1"];
     SafeApp.iconUrl := "https://app.example/i.png";
     SafeApp.safeAppsPermissions := Some (JArray []) |}.

Definition resolvedWorld : World :=
  afterManifestRequest Sample.missingPage "https://app.example/manifest.json" 70 [].

End Sample2.

(* ===================================================================== *)
(** ** Strings and numbers *)
(* ===================================================================== *)

Section StringFacts.

Lemma prefix_empty s : String.prefix "" s = true.
Proof. destruct s; reflexivity. Qed.

Lemma prefix_cons a p s :
  String.prefix (String a p) (String a s) = String.prefix p s.
Proof.
  simpl. destruct (ascii_dec a a) as [_|H]; [reflexivity | contradiction].
Qed.

Lemma split_nonempty c s : JSString.split c s <> [].
Proof.
  destruct s as [|a s]; simpl; [discriminate|].
  destruct (Ascii.eqb a c); [discriminate|].
  destruct (JSString.split c s); discriminate.
Qed.

(** The first piece of a split is a prefix of the string. *)
Lemma split_head_prefix c s piece pieces :
  JSString.split c s = piece :: pieces -> String.prefix piece s = true.
Proof.
  revert piece pieces. induction s as [|a s IH]; intros piece pieces; simpl.
  - intros H. inversion H. reflexivity.
  - destruct (Ascii.eqb a c).
    + intros H. inversion H. reflexivity.
    + destruct (JSString.split c s) as [|q qs] eqn:Hs.
      * intros H. inversion H; subst.
        destruct (ascii_dec a a) as [_|F]; [apply prefix_empty | contradiction].
      * intros H. inversion H; subst.
        destruct (ascii_dec a a) as [_|F]; [|contradiction].
        eapply IH. reflexivity.
Qed.

(** Every piece of a split occurs in the string. *)
Lemma split_piece_included c s piece :
  In piece (JSString.split c s) -> JSString.includes s piece = true.
Proof.
  revert piece. induction s as [|a s IH]; intros piece; simpl.
  - intros [H|[]]. subst. reflexivity.
  - destruct (Ascii.eqb a c); simpl.
    + intros [H|H].
      * subst. reflexivity.
      * rewrite (IH _ H). apply orb_true_r.
    + destruct (JSString.split c s) as [|q qs] eqn:Hs.
      * exfalso. exact (split_nonempty c s Hs).
      * intros [H|H].
        -- subst piece.
           destruct (ascii_dec a a) as [_|F]; [|contradiction].
           rewrite (split_head_prefix c s q qs Hs). reflexivity.
        -- rewrite (IH piece (or_intror H)). apply orb_true_r.
Qed.

(** A root-relative reference does not carry the secure scheme. *)
Lemma startsWith_slash ref :
  JSString.startsWith ref "/" = true ->
  JSString.startsWith ref "https://" = false.
Proof.
  unfold JSString.startsWith. destruct ref as [|a ref]; [discriminate|].
  cbn [String.prefix].
  destruct (ascii_dec "/" a) as [Ha|]; [|discriminate].
  subst a. intros _.
  destruct (ascii_dec "h" "/") as [F|]; [discriminate F | reflexivity].
Qed.

(** The length of a non-empty array or string is truthy. *)
Lemma nonzero_length n :
  nonzero (Finite (Z.of_nat (S n)) 0) = true.
Proof.
  unfold nonzero, scaled_lt.
  change (0 <=? 0) with true. cbv iota.
  apply Z.ltb_lt.
  assert (H : 0 < 2 ^ 1075) by (apply Z.pow_pos_nonneg; lia).
  rewrite Z.pow_0_r, Z.mul_1_r.
  assert (1 <= Z.abs (Z.of_nat (S n))) by lia.
  assert (2 <= 2 ^ 1075) by (change 2 with (2 ^ 1) at 1; apply Z.pow_le_mono_r; lia).
  nia.
Qed.

(** The digits of a decimal numeral, read from the left. *)
Lemma span_digits_decimal d : forall d' k,
  span_digits 10 (NilEmpty.string_of_uint d) (Z.of_N (Unsigned.of_lu d')) k =
  (Z.of_N (Unsigned.of_lu (Decimal.revapp d d')), (k + Decimal.nb_digits d)%nat, "").
Proof.
  induction d; intros d' k;
    cbn [NilEmpty.string_of_uint span_digits Decimal.revapp Decimal.nb_digits];
    [rewrite Nat.add_0_r; reflexivity | ..];
    match goal with
    | |- context [digit 10 ?c] =>
        let v := eval vm_compute in (digit 10 c) in
        change (digit 10 c) with v
    end; cbv iota;
    rewrite <- Nat.add_succ_comm;
    match goal with
    | |- context [Decimal.revapp d ?e] => rewrite <- (IHd e (S k))
    end;
    f_equal; f_equal; cbn [Unsigned.of_lu]; lia.
Qed.

(** A string of decimal digits and its first character. *)
Lemma string_of_uint_head d :
  d <> Decimal.Nil ->
  exists a rest,
    NilEmpty.string_of_uint d = String a rest /\
    48 <= code a <= 57 /\
    (rest = "" \/ exists b rest', rest = String b rest' /\ 48 <= code b <= 57).
Proof.
  intros Hd. destruct d as [|d|d|d|d|d|d|d|d|d|d]; [contradiction|..];
    cbn [NilEmpty.string_of_uint]; eexists; eexists;
    (split; [reflexivity|]); (split; [vm_compute; split; discriminate|]);
    (destruct d as [|d|d|d|d|d|d|d|d|d|d]; [left; reflexivity|..];
     right; cbn [NilEmpty.string_of_uint]; eexists; eexists;
     (split; [reflexivity|]); vm_compute; split; discriminate).
Qed.

Lemma skip_ws_ascii a rest :
  ws1 a = false -> code a < 194 -> skip_ws (String a rest) = String a rest.
Proof.
  intros H1 Ha. cbn [skip_ws]. rewrite H1.
  destruct rest as [|b [|c r3]]; try reflexivity; unfold ws2, ws3; cbv zeta;
    destruct (Z.eqb_spec (code a) 194); try lia;
    destruct (Z.eqb_spec (code a) 225); try lia;
    destruct (Z.eqb_spec (code a) 226); try lia;
    destruct (Z.eqb_spec (code a) 227); try lia;
    destruct (Z.eqb_spec (code a) 239); try lia;
    reflexivity.
Qed.

Lemma StringToNumber_digits d :
  d <> Decimal.Nil ->
  StringToNumber (NilEmpty.string_of_uint d) =
  Finite (Z.of_N (Unsigned.of_lu (Decimal.rev d))) 0.
Proof.
  intros Hd.
  pose proof (span_digits_decimal d Decimal.Nil 0) as Hspan.
  change (Z.of_N (Unsigned.of_lu Decimal.Nil)) with 0 in Hspan.
  cbn [Nat.add] in Hspan. fold (Decimal.rev d) in Hspan.
  assert (Hn : exists n, Decimal.nb_digits d = S n).
  { destruct d; [contradiction|..]; eexists; reflexivity. }
  destruct Hn as [n Hn]. rewrite Hn in Hspan.
  destruct (string_of_uint_head d Hd) as (a & rest & Hs & Ha & Hrest).
  rewrite Hs in *.
  unfold StringToNumber.
  rewrite skip_ws_ascii.
  2:{ unfold ws1. cbv zeta.
      destruct (Z.leb_spec 9 (code a)), (Z.leb_spec (code a) 13),
        (Z.eqb_spec (code a) 32); try lia; reflexivity. }
  2:{ lia. }
  assert (Hradix : radixPrefix (String a rest) = None).
  { unfold radixPrefix.
    destruct Hrest as [->|(b & r' & -> & Hb)]; [reflexivity|].
    destruct (code a =? 48); [|reflexivity]. cbv zeta.
    destruct (Z.eqb_spec (code b) 120); try lia.
    destruct (Z.eqb_spec (code b) 88); try lia.
    destruct (Z.eqb_spec (code b) 111); try lia.
    destruct (Z.eqb_spec (code b) 79); try lia.
    destruct (Z.eqb_spec (code b) 98); try lia.
    destruct (Z.eqb_spec (code b) 66); try lia.
    reflexivity. }
  rewrite Hradix.
  destruct (Z.eqb_spec (code a) 45); try lia.
  destruct (Z.eqb_spec (code a) 43); try lia.
  unfold unsignedDecimal.
  assert (Hinf : String.prefix "Infinity" (String a rest) = false).
  { cbn [String.prefix]. destruct (ascii_dec "I" a) as [<-|]; [|reflexivity].
    exfalso. change (code "I") with 73 in Ha. lia. }
  rewrite Hinf, Hspan. cbn. reflexivity.
Qed.

Lemma StringToNumber_ofN n :
  StringToNumber (JSString.ofN n) = Finite (Z.of_N n) 0.
Proof.
  unfold JSString.ofN, NilZero.string_of_uint.
  assert (Hnil : N.to_uint n <> Decimal.Nil).
  { destruct n as [|p]; [discriminate|]. exact (Unsigned.to_uint_nonnil p). }
  transitivity (StringToNumber (NilEmpty.string_of_uint (N.to_uint n))).
  - destruct (N.to_uint n); [contradiction|..]; reflexivity.
  - rewrite (StringToNumber_digits _ Hnil), <- Unsigned.of_uint_alt.
    change (Pos.of_uint (N.to_uint n)) with (N.of_uint (N.to_uint n)).
    rewrite DecimalN.Unsigned.of_to. reflexivity.
Qed.

(** A call value written as a decimal integer is positive for
    [Number(value) > 0] exactly when the integer is. *)
Lemma gt_0_ofN n : gt_0 (Number (Some (JSString.ofN n))) = (0 <? n)%N.
Proof.
  unfold Number. rewrite StringToNumber_ofN. unfold gt_0, scaled_lt.
  change (0 <=? 0) with true. cbv iota. rewrite Z.pow_0_r, Z.mul_1_r.
  assert (H : 2 <= 2 ^ 1075)
    by (change 2 with (2 ^ 1) at 1; apply Z.pow_le_mono_r; lia).
  destruct (N.ltb_spec 0 n), (Z.ltb_spec 1 (Z.of_N n * 2 ^ 1075));
    try reflexivity; exfalso.
  - assert (1 <= Z.of_N n) by lia. nia.
  - assert (Z.of_N n = 0) by lia. nia.
Qed.

End StringFacts.

(* ===================================================================== *)
(** ** The transaction classifier *)
(* ===================================================================== *)

Section Classifier.

Import DecodedTx.

(** C1, as stated, fails: for a first parameter whose nested decode is
    the empty sequence [isMultisend] is true, although the decoded value
    is not a non-empty sequence. *)
Lemma isMultisend_empty_batch :
  isMultisend (Some Sample.emptyBatch) = true /\
  ~ Stated.firstDecodedNonEmpty (Some Sample.emptyBatch).
Proof.
  split; [reflexivity|].
  intros (m & p & ps & call & calls & Hd & Hv).
  inversion Hd; subst. discriminate Hv.
Qed.

(** C1, amended: [isMultisend] is true iff the first parameter carries a
    nested decoded value, empty or not; it is false when the decoded data
    is absent, when the parameter list is absent or empty, and when the
    first parameter has no nested value; it does not depend on the method
    name. *)
Theorem isMultisend_iff_nested_present :
  forall d : option SDK.DecodedDataResponse,
    (isMultisend d = true <-> Stated.firstDecodedPresent d) /\
    isMultisend None = false /\
    (forall m, isMultisend (Some (SDK.mkDecodedData m None)) = false) /\
    (forall m, isMultisend (Some (SDK.mkDecodedData m (Some []))) = false) /\
    (forall m n t v ps,
        isMultisend
          (Some (SDK.mkDecodedData m (Some (SDK.mkParameter n t v None :: ps))))
        = false) /\
    (forall m m' ps,
        isMultisend (Some (SDK.mkDecodedData m ps)) =
        isMultisend (Some (SDK.mkDecodedData m' ps))).
Proof.
  intros d. repeat split; try reflexivity.
  - destruct d as [[m [[|p ps]|]]|]; simpl; try discriminate.
    destruct (SDK.valueDecoded p) as [calls|] eqn:Hv; [|discriminate].
    intros _. exists m, p, ps, calls. split; [reflexivity | exact Hv].
  - intros (m & p & ps & calls & Hd & Hv). subst d. simpl.
    rewrite Hv. reflexivity.
Qed.

(** C7, as stated, fails: with [showMethodCall] set, a transfer of one
    base unit without decoded data gets no label, although no method name
    is present and the value is positive. *)
Lemma nativeTransferLabel_hidden_by_showMethodCall :
  nativeTransferLabel Sample.propsWithMethodCall = None /\
  Stated.isNativeTransfer Sample.transferOfOne
    (decodedData Sample.propsWithMethodCall) = true.
Proof. split; vm_compute; reflexivity. Qed.

(** C7, amended: for a transaction [t], when [showMethodCall] is false
    (its default) the "native transfer" label is rendered iff no method
    name is present and the call value is strictly greater than zero (for
    a value written as the decimal integer [n]: iff [0 < n]); when
    [showMethodCall] is true the label is never rendered. *)
Theorem nativeTransferLabel_iff :
  forall (p : DecodedTxProps) (t : SDK.SafeTransaction),
    tx p = Some t ->
    (showMethodCallOf p = false ->
     (nativeTransferLabel p = Some "native transfer" <->
      Stated.isNativeTransfer t (decodedData p) = true) /\
     (forall n : N,
         SDK.value (SDK.data t) = JSString.ofN n ->
         (nativeTransferLabel p = Some "native transfer" <->
          noMethod (decodedData p) = true /\ (0 < n)%N))) /\
    (showMethodCallOf p = true -> nativeTransferLabel p = None).
Proof.
  intros p t Ht.
  assert (Hlabel : showMethodCallOf p = false ->
                   (nativeTransferLabel p = Some "native transfer" <->
                    Stated.isNativeTransfer t (decodedData p) = true)).
  { unfold nativeTransferLabel, Stated.isNativeTransfer, Number.
    rewrite Ht. intros Hs. rewrite Hs. cbn [negb andb].
    destruct (noMethod (decodedData p) &&
              gt_0 (StringToNumber (SDK.value (SDK.data t)))).
    - split; reflexivity.
    - split; discriminate. }
  split.
  - intros Hs. split; [exact (Hlabel Hs)|].
    intros n Hn. rewrite (Hlabel Hs). unfold Stated.isNativeTransfer.
    rewrite Hn, gt_0_ofN, andb_true_iff, N.ltb_lt. reflexivity.
  - intros Hs. unfold nativeTransferLabel. rewrite Hs. reflexivity.
Qed.

Lemma nativeTransferLabel_iff_witness :
  (nativeTransferLabel Sample.propsDefault = Some "native transfer" <->
   noMethod None = true /\ (0 < 1)%N) /\
  (nativeTransferLabel Sample.propsWithMethodCall = None).
Proof.
  split.
  - refine (proj2 (proj1 (nativeTransferLabel_iff
                            Sample.propsDefault Sample.transferOfOne _) _)
              1%N _); reflexivity.
  - refine (proj2 (nativeTransferLabel_iff
                     Sample.propsWithMethodCall Sample.transferOfOne _) _);
      reflexivity.
Defined.

(** C8: [trustedDelegateCallTarget] is true when the transaction details
    are absent, have no transaction data, or carry no flag, and is the
    flag of the details when they carry one. *)
Theorem trustedDelegateCallTarget_default :
  forall tx dd sm smc,
    let trusted details :=
      trustedDelegateCallTarget (txData (mkProps tx details dd sm smc)) in
    trusted None = true /\
    trusted (Some (SDK.mkTransactionDetails None)) = true /\
    (forall index,
        trusted (Some (SDK.mkTransactionDetails
                         (Some (SDK.mkTransactionData None index)))) = true) /\
    (forall flag index,
        trusted (Some (SDK.mkTransactionDetails
                         (Some (SDK.mkTransactionData (Some flag) index)))) = flag).
Proof. intros; repeat split. Qed.

End Classifier.

(* ===================================================================== *)
(** ** Icon selection *)
(* ===================================================================== *)

Section IconSelection.

Import IconSelector.

Lemma assoc_sizes i :
  JS.assoc "sizes"
    (optionalProp "src" (src i) ++ [("sizes", JString (sizes i))] ++
     optionalProp "type" (type i)) = Some (JString (sizes i)).
Proof. destruct (src i); reflexivity. Qed.

Lemma assoc_type i :
  JS.assoc "type"
    (optionalProp "src" (src i) ++ [("sizes", JString (sizes i))] ++
     optionalProp "type" (type i)) =
  match type i with Some t => Some (JString t) | None => None end.
Proof. destruct (src i), (type i); reflexivity. Qed.

Lemma get_src i : JS.get (Some (iconJSON i)) "src" = Return (srcValue i).
Proof. unfold srcValue. destruct i as [[s|] z [t|]]; reflexivity. Qed.

Lemma isSvgIcon_typed i : isSvgIcon (iconJSON i) = Return (scalable i).
Proof.
  unfold isSvgIcon, iconJSON, JS.getOpt, JS.get, bindC, scalable, isSvgType.
  rewrite assoc_sizes, assoc_type.
  destruct (JSString.includes (sizes i) "any"); [reflexivity|].
  destruct (type i); reflexivity.
Qed.

Lemma find_isSvgIcon_typed icons :
  JS.find isSvgIcon (map iconJSON icons) =
  Return (option_map iconJSON (List.find scalable icons)).
Proof.
  induction icons as [|i icons IH]; simpl; [reflexivity|].
  rewrite isSvgIcon_typed. simpl.
  destruct (scalable i); [reflexivity | exact IH].
Qed.

Lemma sizeTokens_typed i :
  sizeTokens (iconJSON i) = Return (JSString.split " " (sizes i)).
Proof.
  unfold sizeTokens, iconJSON, JS.get, bindC. rewrite assoc_sizes. reflexivity.
Qed.

Lemma widthScan_cons icon rest :
  widthScan (icon :: rest) =
  let! sizes := sizeTokens icon in
  if existsb sizeIsWide sizes
  then let! src := JS.get (Some icon) "src" in Return (Some src)
  else widthScan rest.
Proof. reflexivity. Qed.

Lemma widthScan_typed icons :
  widthScan (map iconJSON icons) =
  Return (option_map srcValue (List.find isWide icons)).
Proof.
  induction icons as [|i icons IH]; [reflexivity|].
  cbn [map List.find]. rewrite widthScan_cons, sizeTokens_typed.
  cbn [bindC]. fold (isWide i).
  destruct (isWide i).
  - rewrite get_src. reflexivity.
  - exact IH.
Qed.

Lemma truthy_iconJSON i : JS.truthy (Some (iconJSON i)) = true.
Proof. reflexivity. Qed.

(** What [chooseBestIcon] returns on a non-empty list of icon
    descriptors. *)
Lemma chooseBestIcon_typed i icons :
  chooseBestIcon (iconsJSON (i :: icons)) = Return (select (i :: icons)).
Proof.
  unfold chooseBestIcon, iconsJSON, select.
  rewrite find_isSvgIcon_typed. cbn [bindC].
  destruct (List.find scalable (i :: icons)) as [j|]; cbn [option_map].
  - rewrite truthy_iconJSON. apply get_src.
  - cbn [JS.truthy]. rewrite widthScan_typed. cbn [bindC].
    destruct (List.find isWide (i :: icons)) as [j|]; cbn [option_map];
      [reflexivity|].
    cbn [map nth_error]. rewrite get_src. cbn [bindC].
    unfold srcValue, fallback.
    destruct (src i) as [s|]; [|reflexivity].
    cbn [JS.truthy].
    destruct (String.eqb s "") eqn:E; [|reflexivity].
    apply String.eqb_eq in E. subst. reflexivity.
Qed.

(** C3, as stated, fails: of two raster icons, [any] occurs inside a
    token of the first one's [sizes] and only the second is 128 wide or
    more; no icon has an [any] token or the SVG type, so the stated order
    selects the second icon, and the source returns the first. *)
Lemma chooseBestIcon_any_inside_token :
  chooseBestIcon (iconsJSON Sample.banyanIcons) = Return (Some (JString "a.png")) /\
  ~ SelectsAsStated Sample.banyanIcons (Some (JString "a.png")).
Proof.
  split; [vm_compute; reflexivity|].
  intros [_ H].
  assert (Hno : forall i, In i Sample.banyanIcons -> scalableAsStated i = false).
  { intros i [Hi|[Hi|[]]]; subst i; vm_compute; reflexivity. }
  specialize (H Hno).
  assert (Hw : List.find isWide Sample.banyanIcons =
               Some (mkIcon (Some "b.png") "256x256" None))
    by (vm_compute; reflexivity).
  rewrite Hw in H. discriminate H.
Qed.

(** C3, amended: on a non-empty list of icon descriptors
    [chooseBestIcon] returns the source of the first icon whose [sizes]
    string contains [any] (as a token or inside one) or whose type is
    SVG, if there is one; otherwise the source of the first icon with a
    size token whose width component is at least 128; otherwise the first
    icon's source, or the empty string if that source is empty or absent.
    Every icon with an [any] token is among the icons of the first
    rule. *)
Theorem chooseBestIcon_selection_order :
  forall (i : AppManifestIcon) (icons : list AppManifestIcon),
    chooseBestIcon (iconsJSON (i :: icons)) =
    Return
      match List.find scalable (i :: icons) with
      | Some j => srcValue j
      | None =>
          match List.find isWide (i :: icons) with
          | Some j => srcValue j
          | None => fallback (i :: icons)
          end
      end /\
    (forall j, scalableAsStated j = true -> scalable j = true).
Proof.
  intros i icons. split.
  - apply chooseBestIcon_typed.
  - intros j. unfold scalableAsStated, scalable, hasAnyToken.
    intros H. apply orb_true_iff in H. apply orb_true_iff.
    destruct H as [H|H]; [left | right; exact H].
    apply existsb_exists in H. destruct H as (t & Hin & Ht).
    apply String.eqb_eq in Ht. subst t.
    exact (split_piece_included " " (sizes j) "any" Hin).
Qed.

(** The documented selections: the first icon that is wide enough, a
    scalable icon ahead of a larger raster icon, and the fallback to the
    first icon. *)
Example chooseBestIcon_wide :
  chooseBestIcon (iconsJSON [mkIcon (Some "small.png") "64x64" None;
                             mkIcon (Some "large.png") "256x256" None])
  = Return (Some (JString "large.png")).
Proof. vm_compute. reflexivity. Qed.

Example chooseBestIcon_any :
  chooseBestIcon (iconsJSON [mkIcon (Some "a.svg") "any" None;
                             mkIcon (Some "b.png") "512x512" None])
  = Return (Some (JString "a.svg")).
Proof. vm_compute. reflexivity. Qed.

Example chooseBestIcon_fallback :
  chooseBestIcon (iconsJSON [mkIcon (Some "x.png") "32x32" None])
  = Return (Some (JString "x.png")).
Proof. vm_compute. reflexivity. Qed.

(** A size token whose width is not a number does not meet the threshold
    and does not end the selection. *)
Example chooseBestIcon_malformed_width :
  chooseBestIcon (iconsJSON [mkIcon (Some "x.png") "widexhigh" None;
                             mkIcon (Some "y.png") "128x128" None])
  = Return (Some (JString "y.png")).
Proof. vm_compute. reflexivity. Qed.

End IconSelection.

Section IconSelectionPartiality.

Import IconSelector.

Lemma widthScan_missing_sizes before bad rest :
  (forall i, In i before -> isWide i = false) ->
  JS.get (Some bad) "sizes" = Return None ->
  widthScan (map iconJSON before ++ bad :: rest) = Throw (TypeError NullDeref).
Proof.
  intros Hnarrow Hbad.
  induction before as [|i before IH]; cbn [map app]; rewrite widthScan_cons.
  - unfold sizeTokens. rewrite Hbad. reflexivity.
  - rewrite sizeTokens_typed. cbn [bindC]. fold (isWide i).
    rewrite (Hnarrow i (or_introl eq_refl)).
    apply IH. intros j Hj. apply Hnarrow. right. exact Hj.
Qed.

(** C10: [chooseBestIcon] is not total over the manifests that
    [isAppManifestValid] accepts.  Take a manifest with [name],
    [description] and an icon list in which no icon is scalable and an
    entry without [sizes] comes before any icon that reaches the width
    threshold: the manifest is accepted, and the width scan reads
    [sizes] of that entry and throws a [TypeError] instead of skipping
    it, which ends [getAppLogoUrl] with the same error. *)
Theorem chooseBestIcon_not_total :
  forall (props : list (string * JSON)) (before : list AppManifestIcon)
         (bad : JSON) (rest : list JSON),
    let items := (map iconJSON before ++ bad :: rest)%list in
    JS.hasKey "name" props = true ->
    JS.hasKey "description" props = true ->
    JS.assoc "icons" props = Some (JArray items) ->
    JS.find isSvgIcon items = Return None ->
    (forall i, In i before -> isWide i = false) ->
    JS.get (Some bad) "sizes" = Return None ->
    isAppManifestValid (Some (JObject props)) = true /\
    chooseBestIcon (Some (JArray items)) = Throw (TypeError NullDeref) /\
    (forall P appUrl,
        getAppLogoUrl P appUrl (Some (JObject props)) = Throw (TypeError NullDeref)).
Proof.
  intros props before bad rest items Hname Hdesc Hicons Hfind Hnarrow Hbad.
  assert (Hchoose : chooseBestIcon (Some (JArray items)) = Throw (TypeError NullDeref)).
  { unfold chooseBestIcon. rewrite Hfind. cbn [bindC JS.truthy].
    unfold items. rewrite (widthScan_missing_sizes _ _ _ Hnarrow Hbad).
    reflexivity. }
  split; [|split].
  - unfold isAppManifestValid, JS.hasKey in *.
    rewrite Hicons.
    destruct (JS.assoc "name" props); [|discriminate].
    destruct (JS.assoc "description" props); [|discriminate].
    reflexivity.
  - exact Hchoose.
  - intros P appUrl. unfold getAppLogoUrl, chosenIconUrl.
    cbn [JS.get bindC]. rewrite Hicons.
    assert (Hlen : exists n, List.length items = S n).
    { unfold items. rewrite length_app. cbn [List.length].
      exists (List.length (map iconJSON before) + List.length rest)%nat. lia. }
    destruct Hlen as [n Hn].
    assert (Hget : JS.get (Some (JArray items)) "length" =
                   Return (Some (JNumber (Finite (Z.of_nat (S n)) 0)))).
    { unfold JS.get. rewrite Hn. reflexivity. }
    rewrite Hget. cbn [bindC JS.truthy]. rewrite nonzero_length.
    rewrite Hchoose. reflexivity.
Qed.

Lemma chooseBestIcon_not_total_witness :
  isAppManifestValid
    (Some (Sample.manifestWithIcons
             [iconJSON (mkIcon (Some "s.png") "64x64" None);
              Sample.iconWithoutSizes;
              iconJSON (mkIcon (Some "l.png") "256x256" None)])) = true /\
  chooseBestIcon
    (Some (JArray
             [iconJSON (mkIcon (Some "s.png") "64x64" None);
              Sample.iconWithoutSizes;
              iconJSON (mkIcon (Some "l.png") "256x256" None)]))
  = Throw (TypeError NullDeref) /\
  (forall P appUrl,
      getAppLogoUrl P appUrl
        (Some (Sample.manifestWithIcons
                 [iconJSON (mkIcon (Some "s.png") "64x64" None);
                  Sample.iconWithoutSizes;
                  iconJSON (mkIcon (Some "l.png") "256x256" None)]))
      = Throw (TypeError NullDeref)).
Proof.
  apply (chooseBestIcon_not_total
           [("name", JString "x"); ("description", JString "y");
            ("icons", JArray [iconJSON (mkIcon (Some "s.png") "64x64" None);
                              Sample.iconWithoutSizes;
                              iconJSON (mkIcon (Some "l.png") "256x256" None)])]
           [mkIcon (Some "s.png") "64x64" None]
           Sample.iconWithoutSizes
           [iconJSON (mkIcon (Some "l.png") "256x256" None)]).
  - reflexivity.
  - reflexivity.
  - reflexivity.
  - vm_compute. reflexivity.
  - intros i [Hi|[]]. subst i. vm_compute. reflexivity.
  - reflexivity.
Defined.

End IconSelectionPartiality.

(* ===================================================================== *)
(** ** Resolution of the icon reference *)
(* ===================================================================== *)

Section UrlResolver.

(** C5: when the chosen icon reference is the string [ref] and the app
    URL parses with origin [origin], [getAppLogoUrl] returns [ref]
    unchanged if it starts with [https://], and otherwise the origin
    followed by the reference, with a slash in between only when the
    reference is not root-relative.  With the origin
    [https://app.example], an absolute reference is kept, and
    [/icon.png] and [icon.png] both resolve to
    [https://app.example/icon.png]. *)
Theorem getAppLogoUrl_resolves :
  forall (P : Platform) (appUrl origin ref : string) (manifest : JSValue),
    chosenIconUrl manifest = Return (Some (JString ref)) ->
    URL_origin P appUrl = Some origin ->
    getAppLogoUrl P appUrl manifest = Return (resolveAgainstOrigin origin ref) /\
    (JSString.startsWith ref "https://" = true ->
     getAppLogoUrl P appUrl manifest = Return ref) /\
    (JSString.startsWith ref "https://" = false ->
     getAppLogoUrl P appUrl manifest =
     Return (origin ++ (if JSString.startsWith ref "/" then "" else "/") ++ ref)) /\
    resolveAgainstOrigin "https://app.example" "https://cdn.other/icon.png"
    = "https://cdn.other/icon.png" /\
    resolveAgainstOrigin "https://app.example" "/icon.png"
    = "https://app.example/icon.png" /\
    resolveAgainstOrigin "https://app.example" "icon.png"
    = "https://app.example/icon.png".
Proof.
  intros P appUrl origin ref manifest Hicon Horigin.
  assert (H : getAppLogoUrl P appUrl manifest =
              Return (resolveAgainstOrigin origin ref)).
  { unfold getAppLogoUrl, newURLOrigin, resolveAgainstOrigin.
    rewrite Hicon, Horigin. cbn [bindC].
    destruct (JSString.startsWith ref "https://"); reflexivity. }
  repeat split; try reflexivity.
  - exact H.
  - intros Hs. rewrite H. unfold resolveAgainstOrigin. rewrite Hs. reflexivity.
  - intros Hs. rewrite H. unfold resolveAgainstOrigin, isRelativeUrl.
    rewrite Hs. reflexivity.
Qed.

Lemma getAppLogoUrl_resolves_witness :
  getAppLogoUrl (Sample.platform (fun _ _ => Hangs)) "https://app.example/sub"
    (Some (Sample.manifestWithIconPath "icon.png"))
  = Return "https://app.example/icon.png".
Proof.
  apply (getAppLogoUrl_resolves
           (Sample.platform (fun _ _ => Hangs))
           "https://app.example/sub" "https://app.example" "icon.png"
           (Some (Sample.manifestWithIconPath "icon.png")));
    vm_compute; reflexivity.
Defined.

(** The three documented shapes of an icon reference. *)
Example getAppLogoUrl_absolute :
  getAppLogoUrl (Sample.platform (fun _ _ => Hangs)) "https://app.example"
    (Some (Sample.manifestWithIconPath "https://cdn.other/icon.png"))
  = Return "https://cdn.other/icon.png".
Proof. vm_compute. reflexivity. Qed.

Example getAppLogoUrl_root_relative :
  getAppLogoUrl (Sample.platform (fun _ _ => Hangs)) "https://app.example"
    (Some (Sample.manifestWithIconPath "/icon.png"))
  = Return "https://app.example/icon.png".
Proof. vm_compute. reflexivity. Qed.

Example getAppLogoUrl_bare_relative :
  getAppLogoUrl (Sample.platform (fun _ _ => Hangs)) "https://app.example/sub"
    (Some (Sample.manifestWithIconPath "icon.png"))
  = Return "https://app.example/icon.png".
Proof. vm_compute. reflexivity. Qed.

End UrlResolver.

(* ===================================================================== *)
(** ** Discovery and the time-bounded manifest request *)
(* ===================================================================== *)

Section ManifestFetch.

Variable P : Platform.

Lemma N_ltb_add_l (c a b : N) : ((c + a <? c + b) = (a <? b))%N.
Proof.
  destruct (N.ltb_spec a b), (N.ltb_spec (c + a) (c + b)); try reflexivity; lia.
Qed.

(** Runs a computation along the equations in the context. *)
Ltac run_async :=
  repeat first
    [ match goal with
      | H : _ = _ |- _ => rewrite H
      end
    | progress cbn [negb]
    | progress unfold Async.text, Async.lift, Async.ret, Async.throw,
        Async.consoleError
    | progress cbv beta iota ].

(** The discovery request of a fresh run, when it fails. *)
Lemma fetchAndParse_fails url t e :
  DiscoveryFails P url t e ->
  fetchAndParse P url startWorld = (Fulfilled None, afterDiscovery url t [e]).
Proof.
  intros H. unfold fetchAndParse, Async.tryCatch, Async.bind, Async.fetch.
  cbn [startWorld requests List.length clock timers Async.abortTime].
  destruct H as [t H | t r H Hok | t r H Hok Hbody | t r html e H Hok Hbody Hparse];
    run_async; reflexivity.
Qed.

(** The discovery request of a fresh run, when it succeeds. *)
Lemma fetchAndParse_yields url t href :
  DiscoveryYields P url t href ->
  fetchAndParse P url startWorld = (Fulfilled href, afterDiscovery url t []).
Proof.
  intros (r & html & H & Hok & Hbody & Hparse).
  unfold fetchAndParse, Async.tryCatch, Async.bind, Async.fetch.
  cbn [startWorld requests List.length clock timers Async.abortTime].
  run_async. reflexivity.
Qed.

(** [fetchAppManifest] is discovery, the choice of the candidate URL,
    and the time-bounded request. *)
Lemma fetchAppManifest_stages appUrl timeout href w1 :
  fetchAndParse P (trimTrailingSlash appUrl) startWorld = (Fulfilled href, w1) ->
  fetchAppManifest P appUrl timeout startWorld =
  match candidateManifestUrl P appUrl href with
  | Return manifestUrl =>
      manifestRequest P manifestUrl
        (match timeout with Some ms => ms | None => DEFAULT_TIMEOUT end) w1
  | Throw e => (Rejected e, w1)
  end.
Proof.
  intros H. unfold fetchAppManifest, candidateManifestUrl, manifestRequest.
  unfold Async.bind at 1. rewrite H.
  destruct href as [path|]; [|reflexivity].
  destruct (negb (String.eqb path "")); [|reflexivity].
  unfold newURLOrigin. destruct (URL_origin P appUrl); reflexivity.
Qed.

(** The time-bounded request, in a world without pending timers. *)
Lemma manifestRequest_run manifestUrl ms w :
  timers w = [] ->
  manifestRequest P manifestUrl ms w =
  match network P (List.length (requests w)) manifestUrl with
  | Responds after r =>
      if (after <? ms)%N then
        (if negb (ok r)
         then Async.throw (Error ("Failed to fetch manifest from " ++ manifestUrl))
         else Async.json P r)
          (afterManifestRequest w manifestUrl (clock w + after) [])
      else (Rejected AbortError,
            afterManifestRequest w manifestUrl (clock w + ms) [])
  | Fails after =>
      if (after <? ms)%N then
        (Rejected (TypeError NetworkFailure),
         afterManifestRequest w manifestUrl (clock w + after) [manifestTimer w ms])
      else (Rejected AbortError,
            afterManifestRequest w manifestUrl (clock w + ms) [])
  | Hangs =>
      (Rejected AbortError, afterManifestRequest w manifestUrl (clock w + ms) [])
  end.
Proof.
  destruct w as [c rq co tm nid]. cbn [timers]. intros ->.
  unfold manifestRequest, Async.bind, Async.newAbortController,
    Async.setTimeout, Async.fetch, Async.clearTimeout, Async.advance,
    Async.abortTime, afterManifestRequest, manifestTimer.
  cbn [clock requests console timers nextId app fold_right aborts deadline].
  rewrite Nat.eqb_refl.
  destruct (network P (List.length rq) manifestUrl) as [after r|after|].
  - rewrite N_ltb_add_l. destruct (after <? ms)%N eqn:E.
    + cbn [filter deadline timerId]. rewrite N_ltb_add_l, E.
      cbn [filter timerId clock requests console timers nextId].
      rewrite Nat.eqb_refl. cbn [negb filter]. reflexivity.
    + cbn [filter deadline]. rewrite N.ltb_irrefl. reflexivity.
  - rewrite N_ltb_add_l. destruct (after <? ms)%N eqn:E.
    + cbn [filter deadline timerId]. rewrite N_ltb_add_l, E. reflexivity.
    + cbn [filter deadline]. rewrite N.ltb_irrefl. reflexivity.
  - cbn [filter deadline]. rewrite N.ltb_irrefl. reflexivity.
Qed.

End ManifestFetch.

Section ManifestFetchClaims.

Variable P : Platform.
Variable appUrl : string.
Variable timeout : option N.

Let normalizedUrl : string := trimTrailingSlash appUrl.
Let ms : N := match timeout with Some ms => ms | None => DEFAULT_TIMEOUT end.

(** The discovery request of a fresh run either never settles, and the
    call with it, or ends without an exception in a world with no timer
    pending. *)
Lemma fetchAndParse_settles :
  (network P 0 normalizedUrl = Hangs /\
   fst (fetchAndParse P normalizedUrl startWorld) = Forever) \/
  exists href t errors,
    fetchAndParse P normalizedUrl startWorld =
    (Fulfilled href, afterDiscovery normalizedUrl t errors).
Proof.
  destruct (network P 0 normalizedUrl) as [t r| t |] eqn:Hnet.
  - right. destruct (ok r) eqn:Hok.
    + destruct (body r) as [html|] eqn:Hbody.
      * destruct (manifestLinkHref P html) as [href|e] eqn:Hparse.
        -- exists href, t, []. apply fetchAndParse_yields.
           exists r, html. auto.
        -- exists None, t, [e]. apply fetchAndParse_fails.
           eapply ParseError; eauto.
      * exists None, t, [TypeError NetworkFailure]. apply fetchAndParse_fails.
        eapply BodyError; eauto.
    + exists None, t, [Error ("Response status: " ++ JSString.ofN (status r))].
      apply fetchAndParse_fails. eapply BadStatus; eauto.
  - right. exists None, t, [TypeError NetworkFailure].
    apply fetchAndParse_fails. apply NetworkError. exact Hnet.
  - left. split; [reflexivity|].
    unfold fetchAndParse, Async.tryCatch, Async.bind, Async.fetch.
    cbn [startWorld requests List.length clock timers Async.abortTime].
    rewrite Hnet. reflexivity.
Qed.

(** C2: once discovery has settled and the candidate manifest URL is
    computed, the manifest request runs under a timer of [timeout]
    milliseconds, 5000 when none is given.  If the timer runs out before
    the response arrives (or no response ever arrives), the request is
    aborted at that moment and the call fails with the abort error; if
    a response with a status outside 200-299 arrives in time, the call
    fails with the error of the manifest request.  Both are manifest
    fetch errors. *)
Theorem fetchAppManifest_timeout :
  forall (href : option string) (t : N) (errors : list Exn) (manifestUrl : string),
    let w1 := afterDiscovery normalizedUrl t errors in
    fetchAndParse P normalizedUrl startWorld = (Fulfilled href, w1) ->
    candidateManifestUrl P appUrl href = Return manifestUrl ->
    ((network P 1 manifestUrl = Hangs \/
      exists after r,
        network P 1 manifestUrl = Responds after r /\ (ms < after)%N) ->
     fetchAppManifest P appUrl timeout startWorld =
     (Rejected AbortError, afterManifestRequest w1 manifestUrl (t + ms) []) /\
     ManifestFetchError AbortError) /\
    (forall after r,
        network P 1 manifestUrl = Responds after r ->
        (after < ms)%N -> ok r = false ->
        fetchAppManifest P appUrl timeout startWorld =
        (Rejected (Error ("Failed to fetch manifest from " ++ manifestUrl)),
         afterManifestRequest w1 manifestUrl (t + after) []) /\
        ManifestFetchError (Error ("Failed to fetch manifest from " ++ manifestUrl))) /\
    fetchAppManifest P appUrl None = fetchAppManifest P appUrl (Some 5000%N).
Proof.
  intros href t errors manifestUrl w1 Hdisc Hurl.
  assert (Hrun : fetchAppManifest P appUrl timeout startWorld =
                 manifestRequest P manifestUrl ms w1).
  { rewrite (fetchAppManifest_stages P appUrl timeout href w1 Hdisc), Hurl.
    reflexivity. }
  rewrite Hrun, (manifestRequest_run P manifestUrl ms w1 eq_refl).
  change (List.length (requests w1)) with 1%nat.
  change (clock w1) with t.
  split; [|split].
  - intros [Hnet | (after & r & Hnet & Hlate)]; rewrite Hnet.
    + split; [reflexivity | left; reflexivity].
    + assert (E : (after <? ms)%N = false) by (apply N.ltb_ge; lia).
      rewrite E. split; [reflexivity | left; reflexivity].
  - intros after r Hnet Hearly Hbad. rewrite Hnet.
    assert (E : (after <? ms)%N = true) by (apply N.ltb_lt; exact Hearly).
    rewrite E, Hbad. split; [reflexivity|].
    right. right. exists manifestUrl. reflexivity.
  - reflexivity.
Qed.

(** C9 fails on the source: when the manifest request fails before the
    timer runs out, the rejection skips [clearTimeout] and the call
    throws with the timer still pending; its callback fires later, on a
    request that is over. *)
Theorem fetchAppManifest_leaks_timer :
  forall (href : option string) (t : N) (errors : list Exn)
         (manifestUrl : string) (after : N),
    let w1 := afterDiscovery normalizedUrl t errors in
    fetchAndParse P normalizedUrl startWorld = (Fulfilled href, w1) ->
    candidateManifestUrl P appUrl href = Return manifestUrl ->
    network P 1 manifestUrl = Fails after ->
    (after < ms)%N ->
    fetchAppManifest P appUrl timeout startWorld =
    (Rejected (TypeError NetworkFailure),
     afterManifestRequest w1 manifestUrl (t + after) [manifestTimer w1 ms]) /\
    timers (snd (fetchAppManifest P appUrl timeout startWorld)) <> [].
Proof.
  intros href t errors manifestUrl after w1 Hdisc Hurl Hnet Hearly.
  assert (Hrun : fetchAppManifest P appUrl timeout startWorld =
                 (Rejected (TypeError NetworkFailure),
                  afterManifestRequest w1 manifestUrl (t + after)
                    [manifestTimer w1 ms])).
  { rewrite (fetchAppManifest_stages P appUrl timeout href w1 Hdisc), Hurl.
    fold ms. rewrite (manifestRequest_run P manifestUrl ms w1 eq_refl).
    change (List.length (requests w1)) with 1%nat. rewrite Hnet.
    assert (E : (after <? ms)%N = true) by (apply N.ltb_lt; exact Hearly).
    rewrite E. reflexivity. }
  split; [exact Hrun|]. rewrite Hrun. discriminate.
Qed.

(** X20: on the other ways the manifest request ends (a response in
    time, whatever its status, or the timer running out) no timer is left
    pending. *)
Lemma fetchAppManifest_timer_released :
  forall (href : option string) (t : N) (errors : list Exn) (manifestUrl : string),
    let w1 := afterDiscovery normalizedUrl t errors in
    fetchAndParse P normalizedUrl startWorld = (Fulfilled href, w1) ->
    candidateManifestUrl P appUrl href = Return manifestUrl ->
    (forall after, network P 1 manifestUrl = Fails after -> (ms <= after)%N) ->
    timers (snd (fetchAppManifest P appUrl timeout startWorld)) = [].
Proof.
  intros href t errors manifestUrl w1 Hdisc Hurl Hnofail.
  rewrite (fetchAppManifest_stages P appUrl timeout href w1 Hdisc), Hurl.
  fold ms. rewrite (manifestRequest_run P manifestUrl ms w1 eq_refl).
  change (List.length (requests w1)) with 1%nat.
  destruct (network P 1 manifestUrl) as [after r|after|] eqn:Hnet.
  - destruct (after <? ms)%N; [|reflexivity].
    destruct (ok r); cbn [negb]; [|reflexivity].
    unfold Async.json. destruct (body r) as [b|]; [|reflexivity].
    destruct (JSON_parse P b); reflexivity.
  - assert (E : (after <? ms)%N = false)
      by (apply N.ltb_ge; apply Hnofail; reflexivity).
    rewrite E. reflexivity.
  - reflexivity.
Qed.

End ManifestFetchClaims.

(* ===================================================================== *)
(** ** Validation of the fetched manifest *)
(* ===================================================================== *)

Section Validation.

Lemma only_return {A : Type} (a : A) : OnlyTypeErrors (Return a).
Proof. intros e H. discriminate H. Qed.

Lemma only_throw {A : Type} cause : OnlyTypeErrors (@Throw A (TypeError cause)).
Proof. intros e H. inversion H. reflexivity. Qed.

Lemma only_bind {A B : Type} (c : Completion A) (k : A -> Completion B) :
  OnlyTypeErrors c -> (forall a, OnlyTypeErrors (k a)) ->
  OnlyTypeErrors (bindC c k).
Proof.
  intros Hc Hk e. destruct c as [a|e']; simpl.
  - apply Hk.
  - intros H. inversion H; subst. apply Hc. reflexivity.
Qed.

Create HintDb only.
Hint Resolve only_return only_throw : only.

Lemma only_get v k : OnlyTypeErrors (JS.get v k).
Proof.
  destruct v as [[| | |s|items|props]|]; simpl; auto with only;
    destruct (String.eqb k "length"); auto with only.
Qed.

Lemma only_getOpt v k : OnlyTypeErrors (JS.getOpt v k).
Proof.
  destruct v as [[| | |s|items|props]|]; simpl; auto with only;
    destruct (String.eqb k "length"); auto with only.
Qed.

Lemma only_isSvgIcon icon : OnlyTypeErrors (isSvgIcon icon).
Proof.
  unfold isSvgIcon. apply only_bind; [apply only_getOpt|].
  intros sizes. apply only_bind.
  - destruct sizes as [[| | |s|items|props]|]; auto with only.
  - intros [|]; [auto with only|].
    apply only_bind; [apply only_getOpt | auto with only].
Qed.

Lemma only_find items : OnlyTypeErrors (JS.find isSvgIcon items).
Proof.
  induction items as [|x rest IH]; simpl; [auto with only|].
  apply only_bind; [apply only_isSvgIcon|].
  intros [|]; [auto with only | exact IH].
Qed.

Lemma only_sizeTokens icon : OnlyTypeErrors (sizeTokens icon).
Proof.
  unfold sizeTokens. apply only_bind; [apply only_get|].
  intros [[| | |s|items|props]|]; auto with only.
Qed.

Lemma only_widthScan items : OnlyTypeErrors (widthScan items).
Proof.
  induction items as [|x rest IH]; [simpl; auto with only|].
  rewrite widthScan_cons.
  apply only_bind; [apply only_sizeTokens|].
  intros tokens. destruct (existsb sizeIsWide tokens); [|exact IH].
  apply only_bind; [apply only_get | auto with only].
Qed.

Lemma only_chooseBestIcon icons : OnlyTypeErrors (chooseBestIcon icons).
Proof.
  destruct icons as [[| | |s|items|props]|]; simpl; auto with only.
  apply only_bind; [apply only_find|].
  intros svgIcon. destruct (JS.truthy svgIcon); [apply only_get|].
  apply only_bind; [apply only_widthScan|].
  intros [src|]; [auto with only|].
  apply only_bind; [apply only_get|].
  intros src. destruct (JS.truthy src); auto with only.
Qed.

Lemma only_chosenIconUrl manifest : OnlyTypeErrors (chosenIconUrl manifest).
Proof.
  unfold chosenIconUrl. apply only_bind; [apply only_get|].
  intros icons. apply only_bind; [apply only_get|].
  intros iconPath. apply only_bind; [apply only_get|].
  intros length. destruct (JS.truthy length);
    [apply only_chooseBestIcon | auto with only].
Qed.

(** [getAppLogoUrl] throws nothing but type errors. *)
Lemma only_getAppLogoUrl P appUrl manifest :
  OnlyTypeErrors (getAppLogoUrl P appUrl manifest).
Proof.
  unfold getAppLogoUrl. apply only_bind; [apply only_chosenIconUrl|].
  intros iconUrl. apply only_bind.
  - destruct iconUrl as [[| | |s|items|props]|]; auto with only.
  - intros ref. apply only_bind.
    + unfold newURLOrigin. destruct (URL_origin P appUrl); auto with only.
    + intros origin. destruct (JSString.startsWith ref "https://");
        auto with only.
Qed.

Lemma isAppManifestValid_iff json :
  isAppManifestValid json = true <->
  exists props,
    json = Some (JObject props) /\
    JS.hasKey "name" props = true /\
    JS.hasKey "description" props = true /\
    (JS.hasKey "icons" props = true \/ JS.hasKey "iconPath" props = true).
Proof.
  split.
  - destruct json as [[| | | | |props]|]; simpl; try discriminate.
    intros H. apply andb_true_iff in H. destruct H as [H Hicon].
    apply andb_true_iff in H. destruct H as [Hname Hdesc].
    apply orb_true_iff in Hicon. exists props. auto.
  - intros (props & -> & Hname & Hdesc & Hicon). simpl.
    rewrite Hname, Hdesc. apply orb_true_iff in Hicon. rewrite Hicon.
    reflexivity.
Qed.

(** C4: [isAppManifestValid] accepts a parsed JSON value iff it is an
    object (so not [null]) with the keys [name] and [description] and at
    least one of [icons] and [iconPath]; it rejects [{name:"x"}] and
    accepts [{name:"x", description:"y", iconPath:"/i.png"}]; and when
    [fetchAppManifest] has fetched a document, [fetchSafeAppFromManifest]
    fails with the invalid-manifest error exactly when the check rejects
    that document. *)
Theorem manifest_validation :
  forall (P : Platform) (appUrl currentChainId : string)
         (fetched : JSON) (w : World),
    fetchAppManifest P appUrl None startWorld = (Fulfilled fetched, w) ->
    (forall json,
        isAppManifestValid json = true <->
        exists props,
          json = Some (JObject props) /\
          JS.hasKey "name" props = true /\
          JS.hasKey "description" props = true /\
          (JS.hasKey "icons" props = true \/ JS.hasKey "iconPath" props = true)) /\
    isAppManifestValid (Some (JObject [("name", JString "x")])) = false /\
    isAppManifestValid
      (Some (JObject [("name", JString "x"); ("description", JString "y");
                      ("iconPath", JString "/i.png")])) = true /\
    ((exists e,
         fst (fetchSafeAppFromManifest P appUrl currentChainId startWorld)
         = Rejected e /\ ManifestInvalidError e) <->
     isAppManifestValid (Some fetched) = false).
Proof.
  intros P appUrl chain fetched w Hfetch.
  split; [exact isAppManifestValid_iff|].
  split; [reflexivity|]. split; [reflexivity|].
  unfold fetchSafeAppFromManifest. unfold Async.bind at 1. rewrite Hfetch.
  destruct (isAppManifestValid (Some fetched)) eqn:Hvalid; cbn [negb].
  - split; [|discriminate]. intros (e & Hrun & He). exfalso.
    red in He. subst e. revert Hrun.
    unfold Async.bind at 1.
    pose proof (only_getAppLogoUrl P (trimTrailingSlash appUrl) (Some fetched)) as Honly.
    destruct (getAppLogoUrl P (trimTrailingSlash appUrl) (Some fetched))
      as [icon|e] eqn:Hlogo; cbn [Async.lift Async.ret Async.throw fst].
    + apply isAppManifestValid_iff in Hvalid.
      destruct Hvalid as (props & Hjson & _). inversion Hjson; subst fetched.
      unfold Async.bind, Async.lift, JS.get, Async.ret. cbv beta iota.
      discriminate.
    + intros He. inversion He; subst e.
      specialize (Honly _ eq_refl). discriminate Honly.
  - split; [reflexivity|]. intros _.
    exists (Error "Invalid Safe App manifest"). split; reflexivity.
Qed.

End Validation.

(* ===================================================================== *)
(** ** Best-effort discovery *)
(* ===================================================================== *)

Section Discovery.

Variable P : Platform.

(** The time-bounded request logs its URL, however it ends. *)
Lemma manifestRequest_requests manifestUrl ms w :
  timers w = [] ->
  requests (snd (manifestRequest P manifestUrl ms w)) =
  (requests w ++ [manifestUrl])%list.
Proof.
  intros Hw. rewrite (manifestRequest_run P manifestUrl ms w Hw).
  destruct (network P (List.length (requests w)) manifestUrl) as [after r|after|].
  - destruct (after <? ms)%N; [|reflexivity].
    destruct (ok r); cbn [negb]; [|reflexivity].
    unfold Async.json. destruct (body r) as [b|]; [|reflexivity].
    destruct (JSON_parse P b); reflexivity.
  - destruct (after <? ms)%N; reflexivity.
  - reflexivity.
Qed.

(** The time-bounded request writes nothing to the console. *)
Lemma manifestRequest_console manifestUrl ms w :
  timers w = [] ->
  console (snd (manifestRequest P manifestUrl ms w)) = console w.
Proof.
  intros Hw. rewrite (manifestRequest_run P manifestUrl ms w Hw).
  destruct (network P (List.length (requests w)) manifestUrl) as [after r|after|].
  - destruct (after <? ms)%N; [|reflexivity].
    destruct (ok r); cbn [negb]; [|reflexivity].
    unfold Async.json. destruct (body r) as [b|]; [|reflexivity].
    destruct (JSON_parse P b); reflexivity.
  - destruct (after <? ms)%N; reflexivity.
  - reflexivity.
Qed.

Lemma length_append_string (s1 s2 : string) :
  String.length (s1 ++ s2) = (String.length s1 + String.length s2)%nat.
Proof. induction s1 as [|a s1 IH]; cbn; [reflexivity | rewrite IH; reflexivity]. Qed.

(** C6 fails on the source: when the page advertises a non-empty href
    that is not root-relative (a path-relative [manifest.json], or an
    absolute URL), the call requests the origin of the app URL immediately
    followed by the href, a URL of another host, and not the href resolved
    against the origin.  For the same reference the sibling
    [getAppLogoUrl] inserts the separating slash, or keeps an [https://]
    reference, and the two results differ. *)
Theorem fetchAppManifest_href_concatenated :
  forall (appUrl : string) (timeout : option N) (t : N) (path origin : string),
    DiscoveryYields P (trimTrailingSlash appUrl) t (Some path) ->
    path <> "" ->
    URL_origin P appUrl = Some origin ->
    origin <> "" ->
    isRelativeUrl path = false ->
    requests (snd (fetchAppManifest P appUrl timeout startWorld))
    = [trimTrailingSlash appUrl; origin ++ path] /\
    getAppLogoUrl P appUrl (Some (JObject [("iconPath", JString path)]))
    = Return (resolveAgainstOrigin origin path) /\
    origin ++ path <> resolveAgainstOrigin origin path.
Proof.
  intros appUrl timeout t path origin Hyield Hpath Horigin Hnonempty Hslash.
  split; [|split].
  - rewrite (fetchAppManifest_stages P appUrl timeout _ _
               (fetchAndParse_yields P _ t _ Hyield)).
    unfold candidateManifestUrl, newURLOrigin.
    destruct (String.eqb_spec path ""); [contradiction|].
    rewrite Horigin. cbn [negb bindC].
    rewrite manifestRequest_requests; reflexivity.
  - unfold getAppLogoUrl, chosenIconUrl, newURLOrigin, resolveAgainstOrigin.
    cbn. rewrite Horigin. cbn [bindC].
    destruct (JSString.startsWith path "https://"); reflexivity.
  - unfold resolveAgainstOrigin. rewrite Hslash.
    intros Heq. apply (f_equal String.length) in Heq. revert Heq.
    destruct (JSString.startsWith path "https://").
    + rewrite length_append_string.
      destruct origin; [contradiction | cbn; lia].
    + rewrite !length_append_string. cbn. lia.
Qed.

(** X21: a failure of discovery (network error, status outside 200-299,
    unreadable body, parse error) is logged once and is never fatal: the
    call goes on to request [<normalizedUrl>/manifest.json] under the
    timer, and it does the same without logging when the page advertises
    no href or an empty one. *)
Theorem discovery_never_fatal :
  forall (appUrl : string) (timeout : option N),
    let normalizedUrl := trimTrailingSlash appUrl in
    let ms := match timeout with Some ms => ms | None => DEFAULT_TIMEOUT end in
    let run := fetchAppManifest P appUrl timeout startWorld in
    (forall t e,
        DiscoveryFails P normalizedUrl t e ->
        run = manifestRequest P (normalizedUrl ++ "/manifest.json") ms
                (afterDiscovery normalizedUrl t [e]) /\
        requests (snd run) = [normalizedUrl; normalizedUrl ++ "/manifest.json"] /\
        console (snd run) = [e]) /\
    (forall t href,
        DiscoveryYields P normalizedUrl t href ->
        href = None \/ href = Some "" ->
        run = manifestRequest P (normalizedUrl ++ "/manifest.json") ms
                (afterDiscovery normalizedUrl t []) /\
        requests (snd run) = [normalizedUrl; normalizedUrl ++ "/manifest.json"] /\
        console (snd run) = []).
Proof.
  intros appUrl timeout normalizedUrl ms run.
  split.
  - intros t e Hfail.
    pose proof (fetchAndParse_fails P normalizedUrl t e Hfail) as Hdisc.
    assert (Hrun : run = manifestRequest P (normalizedUrl ++ "/manifest.json") ms
                           (afterDiscovery normalizedUrl t [e])).
    { unfold run.
      rewrite (fetchAppManifest_stages P appUrl timeout None _ Hdisc).
      reflexivity. }
    split; [exact Hrun|]. rewrite Hrun. split.
    + rewrite manifestRequest_requests; reflexivity.
    + rewrite manifestRequest_console; reflexivity.
  - intros t href Hyield Hnone.
    pose proof (fetchAndParse_yields P normalizedUrl t href Hyield) as Hdisc.
    assert (Hrun : run = manifestRequest P (normalizedUrl ++ "/manifest.json") ms
                           (afterDiscovery normalizedUrl t [])).
    { unfold run.
      rewrite (fetchAppManifest_stages P appUrl timeout href _ Hdisc).
      destruct Hnone as [-> | ->]; reflexivity. }
    split; [exact Hrun|]. rewrite Hrun. split.
    + rewrite manifestRequest_requests; reflexivity.
    + rewrite manifestRequest_console; reflexivity.
Qed.

End Discovery.

(* ===================================================================== *)
(** ** The pipeline on sample platforms *)
(* ===================================================================== *)

Section SampleRuns.

(** A manifest request that never settles is aborted after 5000 ms; a
    404 for the manifest fails the call. *)
Lemma fetchAppManifest_timeout_witness :
  (fetchAppManifest (Sample.platform Sample.netHangs) Sample.appUrl None startWorld
   = (Rejected AbortError,
      afterManifestRequest Sample.missingPage "https://app.example/manifest.json" 5030 []) /\
   ManifestFetchError AbortError) /\
  (fetchAppManifest (Sample.platform Sample.netNothing) Sample.appUrl None startWorld
   = (Rejected (Error "Failed to fetch manifest from https://app.example/manifest.json"),
      afterManifestRequest Sample.missingPage "https://app.example/manifest.json" 60 []) /\
   ManifestFetchError
     (Error "Failed to fetch manifest from https://app.example/manifest.json")).
Proof.
  split.
  - refine (proj1 (fetchAppManifest_timeout
                     (Sample.platform Sample.netHangs) Sample.appUrl None
                     None 30 [Error "Response status: 404"]
                     "https://app.example/manifest.json" _ _) _).
    + vm_compute. reflexivity.
    + vm_compute. reflexivity.
    + left. vm_compute. reflexivity.
  - refine (proj1 (proj2 (fetchAppManifest_timeout
                            (Sample.platform Sample.netNothing) Sample.appUrl None
                            None 30 [Error "Response status: 404"]
                            "https://app.example/manifest.json" _ _))
              30%N Sample.notFound _ _ _).
    + vm_compute. reflexivity.
    + vm_compute. reflexivity.
    + vm_compute. reflexivity.
    + reflexivity.
    + reflexivity.
Defined.

(** The manifest request fails after 10 ms: the call throws at 40 ms with
    the timer for 5030 ms pending. *)
Lemma fetchAppManifest_leaks_timer_witness :
  fetchAppManifest (Sample.platform Sample.netDown) Sample.appUrl None startWorld
  = (Rejected (TypeError NetworkFailure),
     afterManifestRequest Sample.missingPage "https://app.example/manifest.json" 40
       [ {| timerId := 1; deadline := 5030; aborts := 0 |} ]) /\
  timers (snd (fetchAppManifest (Sample.platform Sample.netDown)
                 Sample.appUrl None startWorld)) <> [].
Proof.
  refine (fetchAppManifest_leaks_timer
            (Sample.platform Sample.netDown) Sample.appUrl None
            None 30 [Error "Response status: 404"]
            "https://app.example/manifest.json" 10 _ _ _ _).
  - vm_compute. reflexivity.
  - vm_compute. reflexivity.
  - vm_compute. reflexivity.
  - reflexivity.
Defined.

(** A document with only a name is fetched and rejected. *)
Lemma manifest_validation_witness :
  (exists e,
      fst (fetchSafeAppFromManifest (Sample.platform Sample.netRootLink)
             Sample.appUrl "1" startWorld) = Rejected e /\
      ManifestInvalidError e) <->
  isAppManifestValid (Some Sample.onlyName) = false.
Proof.
  refine (proj2 (proj2 (proj2
            (manifest_validation
               (Sample.platform Sample.netRootLink) Sample.appUrl "1"
               Sample.onlyName
               (afterManifestRequest (afterDiscovery "https://app.example" 30 [])
                  "https://app.example/app.json" 70 [])
               _)))).
  vm_compute. reflexivity.
Defined.

(** The page advertises the path-relative [manifest.json]: the request
    goes to another host, where [getAppLogoUrl] resolves the same
    reference under the app. *)
Lemma fetchAppManifest_href_concatenated_witness :
  requests (snd (fetchAppManifest (Sample.platform Sample.netRelativeLink)
                   Sample.appUrl None startWorld))
  = ["https://app.example"; "https://app.examplemanifest.json"] /\
  getAppLogoUrl (Sample.platform Sample.netRelativeLink) Sample.appUrl
    (Some (JObject [("iconPath", JString "manifest.json")]))
  = Return "https://app.example/manifest.json" /\
  "https://app.example" ++ "manifest.json"
  <> resolveAgainstOrigin "https://app.example" "manifest.json".
Proof.
  refine (fetchAppManifest_href_concatenated
            (Sample.platform Sample.netRelativeLink) Sample.appUrl None
            30 "manifest.json" "https://app.example" _ _ _ _ _).
  - exists (Sample.page "<link rel=manifest href=manifest.json>"),
      "<link rel=manifest href=manifest.json>".
    repeat split; vm_compute; reflexivity.
  - discriminate.
  - reflexivity.
  - discriminate.
  - reflexivity.
Defined.

(** The page is missing: the error is logged and the manifest is
    requested at the conventional path. *)
Lemma discovery_never_fatal_witness :
  requests (snd (fetchAppManifest (Sample.platform Sample.netNoPage)
                   Sample.appUrl None startWorld))
  = ["https://app.example"; "https://app.example/manifest.json"] /\
  console (snd (fetchAppManifest (Sample.platform Sample.netNoPage)
                  Sample.appUrl None startWorld))
  = [Error "Response status: 404"].
Proof.
  refine (proj2 (proj1 (discovery_never_fatal
                          (Sample.platform Sample.netNoPage) Sample.appUrl None)
                   30%N (Error "Response status: 404") _)).
  refine (BadStatus _ _ 30%N Sample.notFound _ _); vm_compute; reflexivity.
Defined.

End SampleRuns.

(* ===================================================================== *)
(** ** Further properties: the rendered transaction *)
(* ===================================================================== *)

Section RenderedTx.

Import DecodedTx View.

(** X1: the decoded-data block is rendered at most once, above the
    accordion or inside it, never both; it is never above the accordion
    when [showMethodCall] is left to its default or the call is a
    multisend; and it is rendered nowhere exactly when the method call
    belongs to the advanced details and there is no method name. *)
Theorem decodedData_block_once :
  forall p : DecodedTxProps,
    decodedDataOutside p && decodedDataInside p = false /\
    (showMethodCall p = None -> decodedDataOutside p = false) /\
    (isMultisend (decodedData p) = true -> decodedDataOutside p = false) /\
    (decodedDataOutside p || decodedDataInside p = false <->
     isMethodCallInAdvanced p = true /\ noMethod (decodedData p) = true).
Proof.
  intros p. unfold decodedDataOutside, decodedDataInside.
  repeat split.
  - destruct (isMethodCallInAdvanced p); reflexivity.
  - intros H. unfold isMethodCallInAdvanced, showMethodCallOf. rewrite H.
    reflexivity.
  - intros H. unfold isMethodCallInAdvanced. rewrite H.
    rewrite orb_true_r. reflexivity.
  - destruct (isMethodCallInAdvanced p); [reflexivity | discriminate].
  - destruct (isMethodCallInAdvanced p); [|discriminate].
    destruct (noMethod (decodedData p)); [reflexivity | discriminate].
  - intros [-> ->]. reflexivity.
Qed.

(** X2: the accordion summary shows at most one of the method name and
    the "native transfer" label; without a transaction it shows no label
    and the accordion is inert; with [showMethodCall] set and a call that
    is no multisend it shows neither, the decoded data being rendered
    above the accordion. *)
Theorem summary_line_exclusive :
  forall p : DecodedTxProps,
    (summaryMethod p = None \/ nativeTransferLabel p = None) /\
    (tx p = None -> nativeTransferLabel p = None /\ accordionInert p = true) /\
    (showMethodCallOf p = true -> isMultisend (decodedData p) = false ->
     summaryMethod p = None /\ nativeTransferLabel p = None /\
     decodedDataOutside p = true).
Proof.
  intros p. split; [|split].
  - unfold summaryMethod, nativeTransferLabel, noMethod.
    destruct (isMethodCallInAdvanced p); [|left; reflexivity].
    destruct (decodedData p) as [d|]; [|left; reflexivity].
    destruct (String.eqb (SDK.method d) ""); [left; reflexivity|].
    right. rewrite andb_false_r. reflexivity.
  - intros H. unfold nativeTransferLabel, accordionInert. rewrite H.
    cbn [Number gt_0]. rewrite andb_false_r. split; reflexivity.
  - intros Hs Hm.
    unfold summaryMethod, nativeTransferLabel, decodedDataOutside,
      isMethodCallInAdvanced.
    rewrite Hs, Hm. repeat split.
Qed.

End RenderedTx.

(* ===================================================================== *)
(** ** Further properties: icons and validation *)
(* ===================================================================== *)

Section MoreIcons.

Import IconSelector.

Lemma ofN_digits n :
  JSString.ofN n = NilEmpty.string_of_uint (N.to_uint n).
Proof.
  unfold JSString.ofN, NilZero.string_of_uint.
  destruct (N.to_uint n) eqn:Hd; try reflexivity.
  exfalso. destruct n as [|q]; [discriminate Hd|].
  exact (Unsigned.to_uint_nonnil q Hd).
Qed.

Lemma split_x_digits d :
  nth_error (JSString.split "x" (NilEmpty.string_of_uint d)) 0 =
  Some (NilEmpty.string_of_uint d).
Proof.
  induction d; cbn [NilEmpty.string_of_uint JSString.split];
    [reflexivity | ..];
    match goal with
    | |- context [Ascii.eqb ?a ?b] =>
        let v := eval vm_compute in (Ascii.eqb a b) in
        change (Ascii.eqb a b) with v
    end; cbv iota;
    (destruct (JSString.split "x" (NilEmpty.string_of_uint d)) as [|q qs];
     [discriminate IHd | inversion IHd; reflexivity]).
Qed.

Lemma split_x_digits_x d rest :
  nth_error (JSString.split "x" (NilEmpty.string_of_uint d ++ String "x" rest)) 0 =
  Some (NilEmpty.string_of_uint d).
Proof.
  induction d; cbn [NilEmpty.string_of_uint JSString.split append];
    [reflexivity | ..];
    match goal with
    | |- context [Ascii.eqb ?a ?b] =>
        let v := eval vm_compute in (Ascii.eqb a b) in
        change (Ascii.eqb a b) with v
    end; cbv iota;
    (destruct (JSString.split "x" (NilEmpty.string_of_uint d ++ String "x" rest))
       as [|q qs];
     [discriminate IHd | inversion IHd; reflexivity]).
Qed.

Lemma ge_MIN_ICON_WIDTH_integer n :
  ge_MIN_ICON_WIDTH (Finite (Z.of_N n) 0) = (128 <=? n)%N.
Proof.
  unfold ge_MIN_ICON_WIDTH, scaled_le, MIN_ICON_WIDTH.
  change (0 <=? 0) with true. cbv iota. rewrite Z.pow_0_r, Z.mul_1_r.
  assert (H : 2 <= 2 ^ 47)
    by (change 2 with (2 ^ 1) at 1; apply Z.pow_le_mono_r; lia).
  destruct (N.leb_spec 128 n), (Z.leb_spec (128 * 2 ^ 47 - 1) (Z.of_N n * 2 ^ 47));
    try reflexivity; exfalso.
  - assert (128 <= Z.of_N n) by lia. nia.
  - assert (Z.of_N n <= 127) by lia. nia.
Qed.

(** X3: for a size token whose width is the decimal integer [w], the
    threshold test is [128 <= w], whatever follows the first [x]: the
    height is never read, and a bare width without [x] counts too. *)
Theorem sizeIsWide_width :
  forall (w : N) (rest : string),
    sizeIsWide (JSString.ofN w ++ String "x" rest) = (128 <=? w)%N /\
    sizeIsWide (JSString.ofN w) = (128 <=? w)%N.
Proof.
  intros w rest. unfold sizeIsWide. rewrite ofN_digits.
  rewrite split_x_digits_x, split_x_digits.
  rewrite <- ofN_digits. cbn [Number]. rewrite StringToNumber_ofN.
  split; apply ge_MIN_ICON_WIDTH_integer.
Qed.

(** X4: on a non-empty list of icon descriptors whose [sizes] are strings
    [chooseBestIcon] never throws, and what it returns is the source of
    one of the icons or the empty string. *)
Theorem chooseBestIcon_returns_a_source :
  forall (i : AppManifestIcon) (icons : list AppManifestIcon),
    exists v,
      chooseBestIcon (iconsJSON (i :: icons)) = Return v /\
      (v = Some (JString "") \/
       exists j, In j (i :: icons) /\ v = srcValue j).
Proof.
  intros i icons. exists (select (i :: icons)).
  split; [apply chooseBestIcon_typed|].
  unfold select.
  destruct (List.find scalable (i :: icons)) as [j|] eqn:Hs.
  - right. exists j. split; [|reflexivity].
    apply find_some in Hs. tauto.
  - destruct (List.find isWide (i :: icons)) as [j|] eqn:Hw.
    + right. exists j. split; [|reflexivity].
      apply find_some in Hw. tauto.
    + unfold fallback, srcValue. destruct (src i) as [s|] eqn:Hsrc.
      * right. exists i. split; [left; reflexivity|]. rewrite Hsrc. reflexivity.
      * left. reflexivity.
Qed.

End MoreIcons.

Section MoreValidation.

Lemma hasKey_In k props :
  JS.hasKey k props = true <-> In k (keys props).
Proof.
  unfold JS.hasKey, keys. induction props as [|[k' v] props IH]; simpl.
  - split; [discriminate | intros []].
  - destruct (String.eqb_spec k k') as [->|Hne].
    + split; [left; reflexivity | reflexivity].
    + rewrite IH. split; [right; assumption|].
      intros [H|H]; [congruence | assumption].
Qed.

(** X5: [isAppManifestValid] looks at the keys of the object only, never
    at their values: an object that has every key of an accepted object
    is accepted too, whatever the keys hold. *)
Theorem isAppManifestValid_keys_only :
  forall props props' : list (string * JSON),
    incl (keys props) (keys props') ->
    isAppManifestValid (Some (JObject props)) = true ->
    isAppManifestValid (Some (JObject props')) = true.
Proof.
  intros props props' Hincl. cbn [isAppManifestValid].
  rewrite !andb_true_iff, !orb_true_iff, !hasKey_In.
  intros [[Hn Hd] Hi]. repeat split; try (apply Hincl; assumption).
  destruct Hi as [Hi|Hi]; [left | right]; apply Hincl; assumption.
Qed.

Lemma isAppManifestValid_keys_only_witness :
  isAppManifestValid
    (Some (JObject [("iconPath", JNull); ("description", JBool false);
                    ("name", JNumber (Finite 7 0))])) = true.
Proof.
  apply (isAppManifestValid_keys_only
           [("name", JString "x"); ("description", JString "y");
            ("iconPath", JString "/i.png")]).
  - intros k [<-|[<-|[<-|[]]]]; cbn; tauto.
  - reflexivity.
Defined.

(** X6: a non-empty [icons] array decides the icon reference alone and
    [iconPath] is not read; [iconPath] (or the empty string) is used when
    [icons] is missing, an empty array, a boolean, a number or an empty
    string; [icons: null] and a non-empty string throw.  With neither
    [icons] nor [iconPath] the logo URL is the origin and a slash. *)
Theorem icons_before_iconPath :
  forall props : list (string * JSON),
    match JS.assoc "icons" props with
    | Some (JArray (x :: items)) =>
        chosenIconUrl (Some (JObject props)) =
        chooseBestIcon (Some (JArray (x :: items)))
    | None | Some (JArray []) | Some (JBool _) | Some (JNumber _) =>
        chosenIconUrl (Some (JObject props)) = Return (iconPathOrEmpty props)
    | Some (JString s) =>
        chosenIconUrl (Some (JObject props)) =
        if String.eqb s "" then Return (iconPathOrEmpty props)
        else Throw (TypeError NotAFunction)
    | Some JNull =>
        chosenIconUrl (Some (JObject props)) = Throw (TypeError NullDeref)
    | Some (JObject _) => True
    end /\
    (forall P appUrl origin,
        URL_origin P appUrl = Some origin ->
        JS.assoc "icons" props = None ->
        JS.assoc "iconPath" props = None ->
        getAppLogoUrl P appUrl (Some (JObject props)) = Return (origin ++ "/")).
Proof.
  intros props. split.
  - unfold chosenIconUrl, iconPathOrEmpty. cbn [JS.get bindC].
    destruct (JS.assoc "iconPath" props) as [path|];
      destruct (JS.assoc "icons" props)
        as [[| b | x | [|a s] | [|x items] | o]|];
      cbn [JS.get bindC]; try exact I;
      change (String.eqb "length" "length") with true; cbv iota;
      cbn [bindC JS.truthy List.length String.length];
      rewrite ?nonzero_length; reflexivity.
  - intros P appUrl origin Ho Hi Hp.
    unfold getAppLogoUrl, chosenIconUrl, newURLOrigin.
    cbn [JS.get bindC]. rewrite Hi, Hp, Ho. reflexivity.
Qed.

(** X7: an object with [name], [description] and [icons: null] passes
    [isAppManifestValid], and [getAppLogoUrl] throws a [TypeError] on it
    on every platform: the default of the destructuring replaces a missing
    [icons], not a [null] one. *)
Theorem null_icons_accepted_then_throw :
  forall props : list (string * JSON),
    JS.hasKey "name" props = true ->
    JS.hasKey "description" props = true ->
    JS.assoc "icons" props = Some JNull ->
    isAppManifestValid (Some (JObject props)) = true /\
    (forall P appUrl,
        getAppLogoUrl P appUrl (Some (JObject props)) = Throw (TypeError NullDeref)).
Proof.
  intros props Hn Hd Hi. split.
  - cbn [isAppManifestValid]. rewrite Hn, Hd. unfold JS.hasKey. rewrite Hi.
    reflexivity.
  - intros P appUrl. unfold getAppLogoUrl, chosenIconUrl.
    cbn [JS.get bindC]. rewrite Hi. reflexivity.
Qed.

Lemma null_icons_accepted_then_throw_witness :
  isAppManifestValid (Some Sample2.manifestNullIcons) = true /\
  (forall P appUrl,
      getAppLogoUrl P appUrl (Some Sample2.manifestNullIcons)
      = Throw (TypeError NullDeref)).
Proof.
  apply (null_icons_accepted_then_throw
           [("name", JString "x"); ("description", JString "y");
            ("icons", JNull); ("iconPath", JString "/i.png")]);
    reflexivity.
Defined.

Lemma prefix_append_r p o x :
  String.prefix p o = true -> String.prefix p (o ++ x) = true.
Proof.
  revert o. induction p as [|a p IH]; intros o; [intros _; apply prefix_empty|].
  destruct o as [|b o]; [discriminate|].
  cbn [append String.prefix].
  destruct (ascii_dec a b); [apply IH | discriminate].
Qed.

(** X8: whenever [getAppLogoUrl] returns, the app URL has parsed and the
    chosen icon reference is a string; and when the origin of the app URL
    is an [https://] origin, the URL returned starts with [https://],
    whether the reference did or not. *)
Theorem getAppLogoUrl_returns_https :
  forall (P : Platform) (appUrl : string) (manifest : JSValue) (logo : string),
    getAppLogoUrl P appUrl manifest = Return logo ->
    exists origin ref,
      URL_origin P appUrl = Some origin /\
      chosenIconUrl manifest = Return (Some (JString ref)) /\
      logo = resolveAgainstOrigin origin ref /\
      (JSString.startsWith origin "https://" = true ->
       JSString.startsWith logo "https://" = true).
Proof.
  intros P appUrl manifest logo. unfold getAppLogoUrl, newURLOrigin.
  destruct (chosenIconUrl manifest) as [[[| | |ref| |]|]|e]; cbn [bindC];
    try discriminate.
  destruct (URL_origin P appUrl) as [origin|]; cbn [bindC]; [|discriminate].
  intros H. exists origin, ref. repeat split.
  - unfold resolveAgainstOrigin.
    destruct (JSString.startsWith ref "https://"); inversion H; reflexivity.
  - intros Horigin.
    destruct (JSString.startsWith ref "https://") eqn:Hs; inversion H; subst.
    + exact Hs.
    + apply prefix_append_r. exact Horigin.
Qed.

Lemma getAppLogoUrl_returns_https_witness :
  exists origin ref,
    URL_origin (Sample.platform Sample2.netSilent) "https://app.example/sub"
    = Some origin /\
    chosenIconUrl (Some (Sample.manifestWithIconPath "icon.png"))
    = Return (Some (JString ref)) /\
    "https://app.example/icon.png" = resolveAgainstOrigin origin ref /\
    (JSString.startsWith origin "https://" = true ->
     JSString.startsWith "https://app.example/icon.png" "https://" = true).
Proof.
  apply (getAppLogoUrl_returns_https
           (Sample.platform Sample2.netSilent) "https://app.example/sub"
           (Some (Sample.manifestWithIconPath "icon.png"))).
  vm_compute. reflexivity.
Defined.

(** X9: the app URL is parsed before the reference is looked at: when it
    does not parse, [getAppLogoUrl] throws a [TypeError] for every string
    reference, also for one that is already absolute. *)
Theorem getAppLogoUrl_unparsed_app_url :
  forall (P : Platform) (appUrl ref : string) (manifest : JSValue),
    URL_origin P appUrl = None ->
    chosenIconUrl manifest = Return (Some (JString ref)) ->
    getAppLogoUrl P appUrl manifest = Throw (TypeError InvalidURL).
Proof.
  intros P appUrl ref manifest Ho Hi.
  unfold getAppLogoUrl, newURLOrigin. rewrite Hi, Ho. reflexivity.
Qed.

Lemma getAppLogoUrl_unparsed_app_url_witness :
  getAppLogoUrl (Sample.platform Sample2.netSilent) Sample2.relativeAppUrl
    (Some (Sample.manifestWithIconPath "https://cdn.other/icon.png"))
  = Throw (TypeError InvalidURL).
Proof.
  apply (getAppLogoUrl_unparsed_app_url
           (Sample.platform Sample2.netSilent) Sample2.relativeAppUrl
           "https://cdn.other/icon.png");
    vm_compute; reflexivity.
Defined.

End MoreValidation.

(* ===================================================================== *)
(** ** Further properties: discovery and the manifest request *)
(* ===================================================================== *)

Section MoreFetch.

Variable P : Platform.

(** X10: in every world [fetchAndParse] makes exactly one request, to the
    URL it is given, and never rejects: it is fulfilled, or it never
    settles because the network never answers; it writes at most one
    error to the console, and only when it returns [undefined]. *)
Theorem fetchAndParse_never_rejects :
  forall (url : string) (w : World),
    let r := fetchAndParse P url w in
    ((exists href, fst r = Fulfilled href) \/
     (fst r = Forever /\ network P (List.length (requests w)) url = Hangs)) /\
    requests (snd r) = (requests w ++ [url])%list /\
    (console (snd r) = console w \/
     exists e, console (snd r) = (console w ++ [e])%list /\ fst r = Fulfilled None).
Proof.
  intros url w r. subst r.
  unfold fetchAndParse, Async.tryCatch, Async.bind, Async.fetch.
  cbn [Async.abortTime].
  destruct (network P (List.length (requests w)) url) as [after resp|after|].
  - destruct (ok resp); cbn [negb].
    + unfold Async.text. destruct (body resp) as [html|].
      * cbn. destruct (manifestLinkHref P html) as [href|e]; cbn.
        -- split; [left; eauto|]. split; [reflexivity | left; reflexivity].
        -- split; [left; eauto|]. split; [reflexivity | right; eauto].
      * cbn. split; [left; eauto|]. split; [reflexivity | right; eauto].
    + cbn. split; [left; eauto|]. split; [reflexivity | right; eauto].
  - cbn. split; [left; eauto|]. split; [reflexivity | right; eauto].
  - cbn. split; [right; split; reflexivity|].
    split; [reflexivity | left; reflexivity].
Qed.

(** X11: the timeout does not cover discovery: when the request of the
    page never settles, [fetchAppManifest] never settles either, whatever
    the timeout; one request has been made and no timer set. *)
Theorem fetchAppManifest_discovery_unbounded :
  forall (appUrl : string) (timeout : option N),
    network P 0 (trimTrailingSlash appUrl) = Hangs ->
    fetchAppManifest P appUrl timeout startWorld =
    (Forever, afterSending startWorld (trimTrailingSlash appUrl)).
Proof.
  intros appUrl timeout Hnet.
  unfold fetchAppManifest. unfold Async.bind at 1.
  unfold fetchAndParse, Async.tryCatch, Async.bind, Async.fetch.
  cbn [startWorld requests List.length clock timers Async.abortTime].
  rewrite Hnet. reflexivity.
Qed.

(** X12: once discovery has settled at time [t] and the candidate URL is
    computed, the call is rejected no later than [timeout] milliseconds
    after [t], having made exactly two requests, unless a response with a
    status in 200-299 arrives before the timer runs out (the one case in
    which the body is read, after the timer is cleared). *)
Theorem fetchAppManifest_deadline :
  forall (appUrl : string) (timeout : option N)
         (href : option string) (t : N) (errors : list Exn) (manifestUrl : string),
    let ms := match timeout with Some ms => ms | None => DEFAULT_TIMEOUT end in
    let run := fetchAppManifest P appUrl timeout startWorld in
    fetchAndParse P (trimTrailingSlash appUrl) startWorld =
    (Fulfilled href, afterDiscovery (trimTrailingSlash appUrl) t errors) ->
    candidateManifestUrl P appUrl href = Return manifestUrl ->
    (forall after r,
        network P 1 manifestUrl = Responds after r ->
        (after < ms)%N -> ok r = false) ->
    (exists e, fst run = Rejected e) /\
    (clock (snd run) <= t + ms)%N /\
    requests (snd run) = [trimTrailingSlash appUrl; manifestUrl].
Proof.
  intros appUrl timeout href t errors manifestUrl ms run Hdisc Hurl Hbad.
  subst run. rewrite (fetchAppManifest_stages P appUrl timeout href _ Hdisc), Hurl.
  fold ms.
  rewrite (manifestRequest_run P manifestUrl ms
             (afterDiscovery (trimTrailingSlash appUrl) t errors) eq_refl).
  cbn [afterDiscovery requests clock List.length].
  destruct (network P 1 manifestUrl) as [after r|after|] eqn:Hnet.
  - destruct (N.ltb_spec after ms) as [Hearly|Hlate].
    + rewrite (Hbad after r eq_refl Hearly). cbn.
      split; [eauto | split; [lia | reflexivity]].
    + cbn. split; [eauto | split; [lia | reflexivity]].
  - destruct (N.ltb_spec after ms); cbn;
      (split; [eauto | split; [lia | reflexivity]]).
  - cbn. split; [eauto | split; [lia | reflexivity]].
Qed.

(** X13: when the page advertises a manifest link and the app URL does not
    parse, the call is rejected with the [TypeError] of [new URL] right
    after discovery: the manifest is not requested and no timer is set. *)
Theorem fetchAppManifest_unparsed_app_url :
  forall (appUrl : string) (timeout : option N) (t : N) (path : string),
    DiscoveryYields P (trimTrailingSlash appUrl) t (Some path) ->
    path <> "" ->
    URL_origin P appUrl = None ->
    fetchAppManifest P appUrl timeout startWorld =
    (Rejected (TypeError InvalidURL),
     afterDiscovery (trimTrailingSlash appUrl) t []).
Proof.
  intros appUrl timeout t path Hyield Hpath Ho.
  rewrite (fetchAppManifest_stages P appUrl timeout (Some path) _
             (fetchAndParse_yields P _ t _ Hyield)).
  unfold candidateManifestUrl, newURLOrigin.
  destruct (String.eqb_spec path ""); [contradiction|].
  rewrite Ho. reflexivity.
Qed.

(** X14: when the manifest answers in time with a status in 200-299, the
    timer is cleared and the body decides: its parsed JSON is the result,
    a body that is no JSON rejects the call with a [SyntaxError], and a
    body that cannot be read with the error of the read. *)
Theorem fetchAppManifest_body :
  forall (appUrl : string) (timeout : option N)
         (href : option string) (t : N) (errors : list Exn)
         (manifestUrl : string) (after : N) (r : Response),
    let ms := match timeout with Some ms => ms | None => DEFAULT_TIMEOUT end in
    let w1 := afterDiscovery (trimTrailingSlash appUrl) t errors in
    fetchAndParse P (trimTrailingSlash appUrl) startWorld = (Fulfilled href, w1) ->
    candidateManifestUrl P appUrl href = Return manifestUrl ->
    network P 1 manifestUrl = Responds after r ->
    (after < ms)%N ->
    ok r = true ->
    fetchAppManifest P appUrl timeout startWorld =
    (match body r with
     | Some text =>
         match JSON_parse P text with
         | Some json => Fulfilled json
         | None => Rejected SyntaxError
         end
     | None => Rejected (TypeError NetworkFailure)
     end,
     afterManifestRequest w1 manifestUrl (t + after) []).
Proof.
  intros appUrl timeout href t errors manifestUrl after r ms w1
         Hdisc Hurl Hnet Hearly Hok.
  rewrite (fetchAppManifest_stages P appUrl timeout href _ Hdisc), Hurl.
  fold ms. rewrite (manifestRequest_run P manifestUrl ms w1 eq_refl).
  change (List.length (requests w1)) with 1%nat. rewrite Hnet.
  assert (E : (after <? ms)%N = true) by (apply N.ltb_lt; exact Hearly).
  rewrite E, Hok. cbn [negb]. unfold Async.json.
  destruct (body r) as [text|]; [|reflexivity].
  destruct (JSON_parse P text); reflexivity.
Qed.

End MoreFetch.

(* ===================================================================== *)
(** ** Further properties: the resolved app *)
(* ===================================================================== *)

Section MoreResolution.

Variable P : Platform.
Variables appUrl currentChainId : string.

(** X15: every rejection of [fetchSafeAppFromManifest] is one of three:
    the rejection of [fetchAppManifest], passed on unchanged; the
    invalid-manifest error, for a fetched document that fails the check;
    or a [TypeError] thrown by [getAppLogoUrl] on a document that passed
    it.  In each case the world is the one [fetchAppManifest] left. *)
Theorem fetchSafeAppFromManifest_rejections :
  forall (w w' : World) (e : Exn),
    fetchSafeAppFromManifest P appUrl currentChainId w = (Rejected e, w') ->
    fetchAppManifest P appUrl None w = (Rejected e, w') \/
    exists fetched,
      fetchAppManifest P appUrl None w = (Fulfilled fetched, w') /\
      ((isAppManifestValid (Some fetched) = false /\
        e = Error "Invalid Safe App manifest") \/
       (isAppManifestValid (Some fetched) = true /\
        getAppLogoUrl P (trimTrailingSlash appUrl) (Some fetched) = Throw e /\
        isTypeError e = true)).
Proof.
  intros w w' e. unfold fetchSafeAppFromManifest. unfold Async.bind at 1.
  destruct (fetchAppManifest P appUrl None w) as [[fetched|e0|] w0];
    [|intros H; inversion H; subst; left; reflexivity | discriminate].
  destruct (isAppManifestValid (Some fetched)) eqn:Hvalid; cbn [negb].
  - unfold Async.bind at 1.
    pose proof (only_getAppLogoUrl P (trimTrailingSlash appUrl) (Some fetched))
      as Honly.
    destruct (getAppLogoUrl P (trimTrailingSlash appUrl) (Some fetched))
      as [icon|e1] eqn:Hlogo; cbn [Async.lift Async.ret Async.throw].
    + apply isAppManifestValid_iff in Hvalid.
      destruct Hvalid as (props & Hjson & _). inversion Hjson; subst fetched.
      unfold Async.bind, Async.lift, JS.get, Async.ret. cbv beta iota.
      discriminate.
    + intros H. inversion H; subst. right. exists fetched.
      split; [reflexivity|]. right.
      split; [exact Hvalid | split; [exact Hlogo | apply Honly; reflexivity]].
  - intros H. inversion H; subst. right. exists fetched.
    split; [reflexivity|]. left. split; [exact Hvalid | reflexivity].
Qed.

(** X16: whenever [fetchSafeAppFromManifest] is fulfilled, the fetched
    document is an object that passed the check, no request was made
    after [fetchAppManifest], and the record holds the app URL without
    its trailing slash, the current chain as the only chain, the resolved
    logo URL, the manifest's name and description, no tags, features or
    social profiles, and the manifest's permissions or an empty list. *)
Theorem fetchSafeAppFromManifest_fulfilled :
  forall (w w' : World) (app : SafeApp.SafeAppDataWithPermissions),
    fetchSafeAppFromManifest P appUrl currentChainId w = (Fulfilled app, w') ->
    exists props,
      fetchAppManifest P appUrl None w = (Fulfilled (JObject props), w') /\
      isAppManifestValid (Some (JObject props)) = true /\
      getAppLogoUrl P (trimTrailingSlash appUrl) (Some (JObject props))
      = Return (SafeApp.iconUrl app) /\
      SafeApp.url app = trimTrailingSlash appUrl /\
      SafeApp.chainIds app = [currentChainId] /\
      SafeApp.name app = JS.assoc "name" props /\
      SafeApp.description app = JS.assoc "description" props /\
      SafeApp.tags app = [] /\ SafeApp.features app = [] /\
      SafeApp.socialProfiles app = [] /\
      SafeApp.accessControl app = NoRestrictions /\
      SafeApp.safeAppsPermissions app =
      (if JS.truthy (JS.assoc "safe_apps_permissions" props)
       then JS.assoc "safe_apps_permissions" props
       else Some (JArray [])).
Proof.
  intros w w' app. unfold fetchSafeAppFromManifest. unfold Async.bind at 1.
  destruct (fetchAppManifest P appUrl None w) as [[fetched|e0|] w0] eqn:Hfetch;
    try discriminate.
  destruct (isAppManifestValid (Some fetched)) eqn:Hvalid; cbn [negb];
    [|discriminate].
  pose proof Hvalid as Hobj. apply isAppManifestValid_iff in Hobj.
  destruct Hobj as (props & Hjson & _). inversion Hjson; subst fetched.
  unfold Async.bind at 1.
  destruct (getAppLogoUrl P (trimTrailingSlash appUrl) (Some (JObject props)))
    as [icon|e1] eqn:Hlogo; cbn [Async.lift Async.ret Async.throw];
    [|discriminate].
  unfold Async.bind, Async.lift, JS.get, Async.ret. cbv beta iota.
  intros H. inversion H; subst. exists props.
  cbn [SafeApp.iconUrl SafeApp.url SafeApp.chainIds SafeApp.name
       SafeApp.description SafeApp.tags SafeApp.features
       SafeApp.socialProfiles SafeApp.accessControl
       SafeApp.safeAppsPermissions].
  split; [reflexivity|]. split; [exact Hvalid|]. split; [exact Hlogo|].
  repeat split.
Qed.

Lemma roundToDouble_near v :
  0 <= v < 2 ^ 83 ->
  0 <= roundToDouble v /\ v - 2 ^ 30 < roundToDouble v <= v + 2 ^ 30.
Proof.
  intros [Hlo Hhi]. unfold roundToDouble.
  destruct (Z.leb_spec (Z.log2 v - 52) 0) as [Hk|Hk]; [lia|].
  assert (Hpos : 0 < v).
  { destruct (Z.eq_dec v 0) as [->|]; [|lia]. discriminate Hk. }
  assert (Hlog : Z.log2 v < 83) by (apply Z.log2_lt_pow2; lia).
  set (k := Z.log2 v - 52) in *.
  assert (Hulp : 0 < 2 ^ k <= 2 ^ 30).
  { split; [apply Z.pow_pos_nonneg; lia | apply Z.pow_le_mono_r; lia]. }
  pose proof (Z.div_mod v (2 ^ k) ltac:(lia)) as Hdiv.
  pose proof (Z.mod_pos_bound v (2 ^ k) ltac:(lia)) as Hmod.
  assert (Hq : 0 <= v / 2 ^ k) by (apply Z.div_pos; lia).
  set (ulp := 2 ^ k) in *. set (q := v / ulp) in *. set (r := v mod ulp) in *.
  destruct ((r <? 2 ^ (k - 1)) || ((r =? 2 ^ (k - 1)) && Z.even q)); nia.
Qed.

(** X17: the identifier [Math.round(Math.random() * 1e9 + 1e6)], with
    the product and the sum rounded to binary64 as the source computes
    them, is between 1,000,000 and 1,001,000,000 for every value of
    [Math.random()], so it is a positive integer that fits the 31 bits of
    a positive integer field. *)
Theorem randomId_range :
  forall bits : Z,
    0 <= bits < 2 ^ 53 ->
    1000000 <= randomId bits <= 1001000000 /\
    0 < randomId bits <= 2147483647.
Proof.
  intros bits [Hlo Hhi]. unfold randomId. cbv zeta.
  destruct (roundToDouble_near (bits * 10 ^ 9) ltac:(lia)) as [Hp0 Hp].
  set (product := roundToDouble (bits * 10 ^ 9)) in *.
  destruct (roundToDouble_near (product + 10 ^ 6 * 2 ^ 53) ltac:(lia))
    as [_ Hs].
  set (sum := roundToDouble (product + 10 ^ 6 * 2 ^ 53)) in *.
  assert (H0 : 1000000 <= (sum + 2 ^ 52) / 2 ^ 53).
  { apply Z.div_le_lower_bound; lia. }
  assert (H1 : (sum + 2 ^ 52) / 2 ^ 53 < 1001000001).
  { apply Z.div_lt_upper_bound; lia. }
  lia.
Qed.

(** A value of [Math.random()] at which the two roundings to binary64
    carry the sum up to a half, and the identifier with it. *)
Example randomId_double_rounding :
  randomId 9007199250237392 = 1001000000 /\
  1000000 + (2 * 9007199250237392 * 10 ^ 9 + 2 ^ 53) / 2 ^ 54 = 1000999999.
Proof. split; vm_compute; reflexivity. Qed.

Lemma randomId_range_witness :
  1000000 <= randomId (2 ^ 53 - 1) <= 1001000000 /\
  0 < randomId (2 ^ 53 - 1) <= 2147483647.
Proof.
  apply (randomId_range (2 ^ 53 - 1)). lia.
Defined.

(** X18: the random bits reach nothing but the identifier: with other
    bits the call makes the same requests and settles the same way, and a
    fulfilled record differs in its identifier only. *)
Theorem fetchSafeAppFromManifest_random_id_only :
  forall (bits : Z) (w : World),
    fetchSafeAppFromManifest (withRandom P bits) appUrl currentChainId w =
    match fetchSafeAppFromManifest P appUrl currentChainId w with
    | (Fulfilled app, w') => (Fulfilled (withId app (randomId bits)), w')
    | settled => settled
    end.
Proof.
  intros bits w. unfold fetchSafeAppFromManifest, Async.bind.
  change (fetchAppManifest (withRandom P bits) appUrl None w)
    with (fetchAppManifest P appUrl None w).
  destruct (fetchAppManifest P appUrl None w) as [[fetched|e0|] w0];
    try reflexivity.
  destruct (isAppManifestValid (Some fetched)); cbn [negb]; [|reflexivity].
  change (getAppLogoUrl (withRandom P bits)) with (getAppLogoUrl P).
  destruct (getAppLogoUrl P (trimTrailingSlash appUrl) (Some fetched))
    as [icon|e1]; cbn [Async.lift Async.ret Async.throw]; [|reflexivity].
  destruct (JS.get (Some fetched) "name");
    cbn [Async.lift Async.ret Async.throw]; [|reflexivity].
  destruct (JS.get (Some fetched) "description");
    cbn [Async.lift Async.ret Async.throw]; [|reflexivity].
  destruct (JS.get (Some fetched) "safe_apps_permissions"); reflexivity.
Qed.

End MoreResolution.

(* ===================================================================== *)
(** ** The further properties on sample platforms *)
(* ===================================================================== *)

Section MoreSampleRuns.

(** Nothing answers: the call never settles, with the default timeout. *)
Lemma fetchAppManifest_discovery_unbounded_witness :
  fetchAppManifest (Sample.platform Sample2.netSilent) Sample.appUrl None startWorld
  = (Forever, afterSending startWorld "https://app.example").
Proof.
  apply (fetchAppManifest_discovery_unbounded
           (Sample.platform Sample2.netSilent) Sample.appUrl None).
  reflexivity.
Defined.

(** The page is missing and the manifest never answers: the call is
    rejected at 5030 ms. *)
Lemma fetchAppManifest_deadline_witness :
  (exists e,
      fst (fetchAppManifest (Sample.platform Sample.netHangs)
             Sample.appUrl None startWorld) = Rejected e) /\
  (clock (snd (fetchAppManifest (Sample.platform Sample.netHangs)
                 Sample.appUrl None startWorld)) <= 30 + 5000)%N /\
  requests (snd (fetchAppManifest (Sample.platform Sample.netHangs)
                   Sample.appUrl None startWorld))
  = ["https://app.example"; "https://app.example/manifest.json"].
Proof.
  refine (fetchAppManifest_deadline
            (Sample.platform Sample.netHangs) Sample.appUrl None
            None 30 [Error "Response status: 404"]
            "https://app.example/manifest.json" _ _ _).
  - vm_compute. reflexivity.
  - vm_compute. reflexivity.
  - intros after r H. vm_compute in H. discriminate H.
Defined.

(** The page of an app URL without a scheme advertises [/app.json]. *)
Lemma fetchAppManifest_unparsed_app_url_witness :
  fetchAppManifest (Sample.platform Sample.netRootLink)
    Sample2.relativeAppUrl None startWorld
  = (Rejected (TypeError InvalidURL), afterDiscovery "app.example" 30 []).
Proof.
  refine (fetchAppManifest_unparsed_app_url
            (Sample.platform Sample.netRootLink) Sample2.relativeAppUrl None
            30 "/app.json" _ _ _).
  - exists (Sample.page "<link rel=manifest href=/app.json>"),
      "<link rel=manifest href=/app.json>".
    repeat split; vm_compute; reflexivity.
  - discriminate.
  - reflexivity.
Defined.

(** The manifest is served as a page of HTML. *)
Lemma fetchAppManifest_body_witness :
  fetchAppManifest (Sample.platform Sample2.netNotJson) Sample.appUrl None startWorld
  = (Rejected SyntaxError,
     afterManifestRequest Sample.missingPage
       "https://app.example/manifest.json" 70 []).
Proof.
  refine (fetchAppManifest_body
            (Sample.platform Sample2.netNotJson) Sample.appUrl None
            None 30 [Error "Response status: 404"]
            "https://app.example/manifest.json" 40
            (mkResponse 200 (Some "<html>")) _ _ _ _ _);
    vm_compute; reflexivity.
Defined.

(** A document with only a name: the rejection is the invalid-manifest
    error. *)
Lemma fetchSafeAppFromManifest_rejections_witness :
  fetchAppManifest (Sample.platform Sample.netRootLink) Sample.appUrl None startWorld
  = (Rejected (Error "Invalid Safe App manifest"),
     afterManifestRequest (afterDiscovery "https://app.example" 30 [])
       "https://app.example/app.json" 70 []) \/
  exists fetched,
    fetchAppManifest (Sample.platform Sample.netRootLink) Sample.appUrl None startWorld
    = (Fulfilled fetched,
       afterManifestRequest (afterDiscovery "https://app.example" 30 [])
         "https://app.example/app.json" 70 []) /\
    ((isAppManifestValid (Some fetched) = false /\
      Error "Invalid Safe App manifest" = Error "Invalid Safe App manifest") \/
     (isAppManifestValid (Some fetched) = true /\
      getAppLogoUrl (Sample.platform Sample.netRootLink)
        (trimTrailingSlash Sample.appUrl) (Some fetched)
      = Throw (Error "Invalid Safe App manifest") /\
      isTypeError (Error "Invalid Safe App manifest") = true)).
Proof.
  apply (fetchSafeAppFromManifest_rejections
           (Sample.platform Sample.netRootLink) Sample.appUrl "1" startWorld).
  vm_compute. reflexivity.
Defined.

(** The manifest at the conventional path is resolved into a record. *)
Lemma fetchSafeAppFromManifest_fulfilled_witness :
  exists props,
    fetchAppManifest (Sample.platform Sample.netNoPage) Sample.appUrl None startWorld
    = (Fulfilled (JObject props), Sample2.resolvedWorld) /\
    isAppManifestValid (Some (JObject props)) = true /\
    getAppLogoUrl (Sample.platform Sample.netNoPage)
      (trimTrailingSlash Sample.appUrl) (Some (JObject props))
    = Return (SafeApp.iconUrl Sample2.resolvedApp) /\
    SafeApp.url Sample2.resolvedApp = trimTrailingSlash Sample.appUrl /\
    SafeApp.chainIds Sample2.resolvedApp = ["1"] /\
    SafeApp.name Sample2.resolvedApp = JS.assoc "name" props /\
    SafeApp.description Sample2.resolvedApp = JS.assoc "description" props /\
    SafeApp.tags Sample2.resolvedApp = [] /\
    SafeApp.features Sample2.resolvedApp = [] /\
    SafeApp.socialProfiles Sample2.resolvedApp = [] /\
    SafeApp.accessControl Sample2.resolvedApp = NoRestrictions /\
    SafeApp.safeAppsPermissions Sample2.resolvedApp =
    (if JS.truthy (JS.assoc "safe_apps_permissions" props)
     then JS.assoc "safe_apps_permissions" props
     else Some (JArray [])).
Proof.
  apply (fetchSafeAppFromManifest_fulfilled
           (Sample.platform Sample.netNoPage) Sample.appUrl "1" startWorld).
  vm_compute. reflexivity.
Defined.

End MoreSampleRuns.

Section ScalableFirst.

Import IconSelector.

Lemma find_isSvgIcon_skips before icon rest :
  (forall x, In x before -> isSvgIcon x = Return false) ->
  isSvgIcon icon = Return true ->
  JS.find isSvgIcon (before ++ icon :: rest) = Return (Some icon).
Proof.
  intros Hbefore Hicon. induction before as [|x before IH]; cbn [app JS.find].
  - rewrite Hicon. reflexivity.
  - rewrite (Hbefore x (or_introl eq_refl)). cbn [bindC].
    apply IH. intros y Hy. apply Hbefore. right. exact Hy.
Qed.

(** X19: when the list holds a scalable icon, the entries before it that
    are [null], lack [sizes] or are plain raster icons do no harm, and
    nothing after it is read: [chooseBestIcon] returns the source of the
    first scalable icon.  The width scan, which throws on such entries, is
    not reached. *)
Theorem chooseBestIcon_scalable_shields :
  forall (before : list JSON) (j : AppManifestIcon) (rest : list JSON),
    (forall x, In x before -> isSvgIcon x = Return false) ->
    scalable j = true ->
    chooseBestIcon (Some (JArray (before ++ iconJSON j :: rest))) =
    Return (srcValue j) /\
    isSvgIcon JNull = Return false /\
    (forall props, JS.assoc "sizes" props = None ->
                   JS.assoc "type" props = None ->
                   isSvgIcon (JObject props) = Return false).
Proof.
  intros before j rest Hbefore Hj. split; [|split].
  - unfold chooseBestIcon.
    rewrite (find_isSvgIcon_skips before (iconJSON j) rest Hbefore).
    + cbn [bindC]. rewrite truthy_iconJSON. apply get_src.
    + rewrite isSvgIcon_typed, Hj. reflexivity.
  - reflexivity.
  - intros props Hs Ht. unfold isSvgIcon, JS.getOpt, JS.get.
    rewrite Hs, Ht. reflexivity.
Qed.

Lemma chooseBestIcon_scalable_shields_witness :
  chooseBestIcon
    (Some (JArray ([JNull; Sample.iconWithoutSizes] ++
                   iconJSON (mkIcon (Some "logo.svg") "any" None) ::
                   [JBool true])))
  = Return (Some (JString "logo.svg")) /\
  isSvgIcon JNull = Return false /\
  (forall props, JS.assoc "sizes" props = None ->
                 JS.assoc "type" props = None ->
                 isSvgIcon (JObject props) = Return false).
Proof.
  apply (chooseBestIcon_scalable_shields
           [JNull; Sample.iconWithoutSizes]
           (mkIcon (Some "logo.svg") "any" None) [JBool true]).
  - intros x [<-|[<-|[]]]; reflexivity.
  - reflexivity.
Defined.

End ScalableFirst.

Section TimerReleased.

(** The manifest arrives in time: no timer is left pending. *)
Lemma fetchAppManifest_timer_released_witness :
  timers (snd (fetchAppManifest (Sample.platform Sample.netNoPage)
                 Sample.appUrl None startWorld)) = [].
Proof.
  refine (fetchAppManifest_timer_released
            (Sample.platform Sample.netNoPage) Sample.appUrl None
            None 30 [Error "Response status: 404"]
            "https://app.example/manifest.json" _ _ _).
  - vm_compute. reflexivity.
  - vm_compute. reflexivity.
  - intros after H. vm_compute in H. discriminate H.
Defined.

End TimerReleased.
